(** * krkn-operator-data-provider: the GetNodes handler

    A shallow embedding of [server.py].  The handler decodes a base64
    credential, builds a [KrknKubernetes] client from the decoded text, asks
    it for the node names and answers with them; any [Exception] raised on
    the way is turned into the gRPC status [INTERNAL].

    Python values are embedded as follows:
    - [str] is a list of Unicode code points, [bytes] a list of byte values,
      both over [N];
    - a raised exception is a [pyexc]: its class and the text [str(e)];
    - the logger, the gRPC servicer context and the calls made on the
      cluster-client library form the [state] threaded through the handler by
      the monad [M], whose results are [Val] (normal return) or [Raise];
    - the cluster-client library ([krkn_lib.k8s]) is a [cluster_library]
      record: what its constructor and [list_nodes] answer. *)

From Stdlib Require Import NArith ZArith List String Ascii Bool Lia Decimal.
From Stdlib Require DecimalN.
Import ListNotations.

Local Open Scope N_scope.
Local Open Scope list_scope.

Ltac Zify.zify_post_hook ::= Z.to_euclidean_division_equations.

(** ** Python strings and bytes *)

Definition codepoint := N.
Definition pystr := list codepoint.
Definition pybytes := list N.

(** A source literal, as the [str] of its characters. *)
Definition py (s : string) : pystr := map N_of_ascii (list_ascii_of_string s).

(** The empty string literal. *)
Definition empty_str : pystr := [].

Definition digit_char (d : N) : N := 48 + d.

Fixpoint uint_str (u : Decimal.uint) : pystr :=
  match u with
  | Nil => []
  | D0 r => digit_char 0 :: uint_str r
  | D1 r => digit_char 1 :: uint_str r
  | D2 r => digit_char 2 :: uint_str r
  | D3 r => digit_char 3 :: uint_str r
  | D4 r => digit_char 4 :: uint_str r
  | D5 r => digit_char 5 :: uint_str r
  | D6 r => digit_char 6 :: uint_str r
  | D7 r => digit_char 7 :: uint_str r
  | D8 r => digit_char 8 :: uint_str r
  | D9 r => digit_char 9 :: uint_str r
  end.

(** [str(n)] / ["%d" % n] for a non-negative integer. *)
Definition str_int (n : N) : pystr :=
  match n with
  | 0 => py "0"
  | _ => uint_str (N.to_uint n)
  end.

Definition hex_digit (d : N) : N := if d <? 10 then 48 + d else 87 + d.

(** ["%02x" % b] for a byte. *)
Definition hex02 (b : N) : pystr := [hex_digit (b / 16); hex_digit (b mod 16)].

(** ** Exceptions *)

(** The part of Python's exception class tree the handler can meet.  A class
    of the client library (or any other) is [Derived name base]. *)
Inductive exc_class : Type :=
| BaseException
| SystemExit
| KeyboardInterrupt
| GeneratorExit
| Exception
| ValueError
| UnicodeError
| UnicodeDecodeError
| binascii_Error
| Derived (name : string) (base : exc_class).

(** [issubclass(c, Exception)]. *)
Fixpoint issubclass_Exception (c : exc_class) : bool :=
  match c with
  | BaseException | SystemExit | KeyboardInterrupt | GeneratorExit => false
  | Exception => true
  | ValueError | UnicodeError | UnicodeDecodeError | binascii_Error => true
  | Derived _ base => issubclass_Exception base
  end.

(** A raised exception object: its class and [str(e)]. *)
Record pyexc : Type := mk_exc { exc_class_of : exc_class; exc_str : pystr }.

Definition isinstance_Exception (e : pyexc) : bool :=
  issubclass_Exception (exc_class_of e).

(** What evaluating a Python expression gives: a value, or a raised
    exception. *)
Inductive result (A : Type) : Type :=
| Val (a : A)
| Raise (e : pyexc).
Arguments Val {A} a.
Arguments Raise {A} e.

Definition result_map {A B} (f : A -> B) (r : result A) : result B :=
  match r with
  | Val a => Val (f a)
  | Raise e => Raise e
  end.

Definition result_bind {A B} (r : result A) (f : A -> result B) : result B :=
  match r with
  | Val a => f a
  | Raise e => Raise e
  end.

(** ** [base64.b64decode(s)] with its defaults ([altchars=None],
    [validate=False])

    The handler calls the standard library here; the definitions follow
    CPython's [base64.b64decode], [base64._bytes_from_decode_data] and
    [binascii.a2b_base64] in non-strict mode. *)

Module Base64.

Definition BASE64_PAD : N := 61.

(** [table_a2b_base64]: the 6-bit value of an alphabet character; [255]
    (the table's [-1] as an unsigned char) for every other character. *)
Definition table_a2b_base64 (c : N) : N :=
  if (65 <=? c) && (c <=? 90) then c - 65
  else if (97 <=? c) && (c <=? 122) then c - 71
  else if (48 <=? c) && (c <=? 57) then c + 4
  else if c =? 43 then 62
  else if c =? 47 then 63
  else if c =? 61 then 0
  else 255.

(** Assignment to an [unsigned char]. *)
Definition u8 (x : N) : N := N.land x 255.

Inductive a2b_outcome : Type :=
| Done (bin_data : pybytes)                       (* [goto done] at a pad *)
| EndOfInput (quad_pos : N) (bin_data : pybytes). (* the loop ran out *)

(** The character loop of [binascii.a2b_base64], [strict_mode] off. *)
Fixpoint a2b_loop (ascii_data : list N) (quad_pos leftchar pads : N)
         (bin_data : pybytes) : a2b_outcome :=
  match ascii_data with
  | [] => EndOfInput quad_pos bin_data
  | this_ch :: rest =>
      if this_ch =? BASE64_PAD then
        if 2 <=? quad_pos then
          if 4 <=? quad_pos + (pads + 1) then Done bin_data
          else a2b_loop rest quad_pos leftchar (pads + 1) bin_data
        else a2b_loop rest quad_pos leftchar pads bin_data
      else
        let v := table_a2b_base64 this_ch in
        if 64 <=? v then a2b_loop rest quad_pos leftchar pads bin_data
        else
          match quad_pos with
          | 0 => a2b_loop rest 1 v 0 bin_data
          | 1 => a2b_loop rest 2 (N.land v 15) 0
                   (bin_data ++ [u8 (N.lor (N.shiftl leftchar 2) (N.shiftr v 4))])
          | 2 => a2b_loop rest 3 (N.land v 3) 0
                   (bin_data ++ [u8 (N.lor (N.shiftl leftchar 4) (N.shiftr v 2))])
          | _ => a2b_loop rest 0 0 0
                   (bin_data ++ [u8 (N.lor (N.shiftl leftchar 6) v)])
          end
  end.

Definition incorrect_padding : pyexc :=
  mk_exc binascii_Error (py "Incorrect padding").

Definition one_more_than_multiple_of_4 (bin_len : N) : pyexc :=
  mk_exc binascii_Error
    (py "Invalid base64-encoded string: number of data characters ("
     ++ str_int (bin_len / 3 * 4 + 1)
     ++ py ") cannot be 1 more than a multiple of 4").

Definition a2b_base64 (data : pybytes) : result pybytes :=
  match a2b_loop data 0 0 0 [] with
  | Done bin_data => Val bin_data
  | EndOfInput quad_pos bin_data =>
      if quad_pos =? 0 then Val bin_data
      else if quad_pos =? 1
           then Raise (one_more_than_multiple_of_4 (N.of_nat (List.length bin_data)))
           else Raise incorrect_padding
  end.

(** [_bytes_from_decode_data]: a [str] argument is encoded as ASCII. *)
Definition bytes_from_decode_data (s : pystr) : result pybytes :=
  if forallb (fun c => c <? 128) s then Val s
  else Raise (mk_exc ValueError
                (py "string argument should contain only ASCII characters")).

Definition b64decode (s : pystr) : result pybytes :=
  result_bind (bytes_from_decode_data s) a2b_base64.

End Base64.

(** ** [bytes.decode('utf-8')] (errors='strict')

    Follows CPython's UTF-8 decoder ([stringlib/codecs.h], [utf8_decode]) as
    [bytes.decode] drives it: the first ill-formed sequence raises
    [UnicodeDecodeError]. *)

Module Utf8.

Definition IS_CONTINUATION_BYTE (ch : N) : bool := (0x80 <=? ch) && (ch <? 0xC0).

Inductive reason : Type :=
| invalid_start_byte
| invalid_continuation_byte
| unexpected_end_of_data.

Definition reason_str (r : reason) : pystr :=
  match r with
  | invalid_start_byte => py "invalid start byte"
  | invalid_continuation_byte => py "invalid continuation byte"
  | unexpected_end_of_data => py "unexpected end of data"
  end.

(** [UnicodeDecodeError('utf-8', object, start, end, reason)]; [b] is
    [object[start]]. *)
Definition decode_error (b start end_ : N) (r : reason) : pyexc :=
  mk_exc UnicodeDecodeError
    (if end_ =? start + 1
     then py "'utf-8' codec can't decode byte 0x" ++ hex02 b
          ++ py " in position " ++ str_int start ++ py ": " ++ reason_str r
     else py "'utf-8' codec can't decode bytes in position " ++ str_int start
          ++ py "-" ++ str_int (end_ - 1) ++ py ": " ++ reason_str r).

Definition emit (c : codepoint) (r : result pystr) : result pystr :=
  result_map (cons c) r.

(** [pos] is the index of the head of [s] in the whole input. *)
Fixpoint utf8_decode (s : pybytes) (pos : N) : result pystr :=
  match s with
  | [] => Val []
  | ch :: s1 =>
    if ch <? 0x80 then emit ch (utf8_decode s1 (pos + 1))
    else if ch <? 0xE0 then
      if ch <? 0xC2 then Raise (decode_error ch pos (pos + 1) invalid_start_byte)
      else match s1 with
        | [] => Raise (decode_error ch pos (pos + 1) unexpected_end_of_data)
        | ch2 :: s2 =>
          if negb (IS_CONTINUATION_BYTE ch2)
          then Raise (decode_error ch pos (pos + 1) invalid_continuation_byte)
          else emit (N.shiftl ch 6 + ch2 - (N.shiftl 0xC0 6 + 0x80))
                    (utf8_decode s2 (pos + 2))
        end
    else if ch <? 0xF0 then
      match s1 with
      | [] => Raise (decode_error ch pos (pos + 1) unexpected_end_of_data)
      | ch2 :: s2 =>
        match s2 with
        | [] =>
          if negb (IS_CONTINUATION_BYTE ch2)
             || (if ch2 <? 0xA0 then ch =? 0xE0 else ch =? 0xED)
          then Raise (decode_error ch pos (pos + 1) invalid_continuation_byte)
          else Raise (decode_error ch pos (pos + 2) unexpected_end_of_data)
        | ch3 :: s3 =>
          if negb (IS_CONTINUATION_BYTE ch2)
          then Raise (decode_error ch pos (pos + 1) invalid_continuation_byte)
          else if (ch =? 0xE0) && (ch2 <? 0xA0)
          then Raise (decode_error ch pos (pos + 1) invalid_continuation_byte)
          else if negb (ch =? 0xE0) && (ch =? 0xED) && (0xA0 <=? ch2)
          then Raise (decode_error ch pos (pos + 1) invalid_continuation_byte)
          else if negb (IS_CONTINUATION_BYTE ch3)
          then Raise (decode_error ch pos (pos + 2) invalid_continuation_byte)
          else emit (N.shiftl ch 12 + N.shiftl ch2 6 + ch3
                     - (N.shiftl 0xE0 12 + N.shiftl 0x80 6 + 0x80))
                    (utf8_decode s3 (pos + 3))
        end
      end
    else if ch <? 0xF5 then
      match s1 with
      | [] => Raise (decode_error ch pos (pos + 1) unexpected_end_of_data)
      | ch2 :: s2 =>
        match s2 with
        | [] =>
          if negb (IS_CONTINUATION_BYTE ch2)
             || (if ch2 <? 0x90 then ch =? 0xF0 else ch =? 0xF4)
          then Raise (decode_error ch pos (pos + 1) invalid_continuation_byte)
          else Raise (decode_error ch pos (pos + 2) unexpected_end_of_data)
        | ch3 :: s3 =>
          match s3 with
          | [] =>
            if negb (IS_CONTINUATION_BYTE ch2)
               || (if ch2 <? 0x90 then ch =? 0xF0 else ch =? 0xF4)
            then Raise (decode_error ch pos (pos + 1) invalid_continuation_byte)
            else if negb (IS_CONTINUATION_BYTE ch3)
            then Raise (decode_error ch pos (pos + 2) invalid_continuation_byte)
            else Raise (decode_error ch pos (pos + 3) unexpected_end_of_data)
          | ch4 :: s4 =>
            if negb (IS_CONTINUATION_BYTE ch2)
            then Raise (decode_error ch pos (pos + 1) invalid_continuation_byte)
            else if (ch =? 0xF0) && (ch2 <? 0x90)
            then Raise (decode_error ch pos (pos + 1) invalid_continuation_byte)
            else if negb (ch =? 0xF0) && (ch =? 0xF4) && (0x90 <=? ch2)
            then Raise (decode_error ch pos (pos + 1) invalid_continuation_byte)
            else if negb (IS_CONTINUATION_BYTE ch3)
            then Raise (decode_error ch pos (pos + 2) invalid_continuation_byte)
            else if negb (IS_CONTINUATION_BYTE ch4)
            then Raise (decode_error ch pos (pos + 3) invalid_continuation_byte)
            else emit (N.shiftl ch 18 + N.shiftl ch2 12 + N.shiftl ch3 6 + ch4
                       - (N.shiftl 0xF0 18 + N.shiftl 0x80 12
                          + N.shiftl 0x80 6 + 0x80))
                      (utf8_decode s4 (pos + 4))
          end
        end
      end
    else Raise (decode_error ch pos (pos + 1) invalid_start_byte)
  end.

(** [b.decode('utf-8')]. *)
Definition decode (b : pybytes) : result pystr := utf8_decode b 0.

End Utf8.

(** ** The logger

    [logging.basicConfig(level=logging.INFO, ...)] at module load: the
    module's [logger] inherits the root level, so a record below [INFO] is
    dropped and every other one is emitted. *)

Inductive log_level : Type := DEBUG | INFO | WARNING | ERROR | CRITICAL.

Definition levelno (l : log_level) : N :=
  match l with
  | DEBUG => 10
  | INFO => 20
  | WARNING => 30
  | ERROR => 40
  | CRITICAL => 50
  end.

Definition configured_level : log_level := INFO.

Definition isEnabledFor (l : log_level) : bool :=
  levelno configured_level <=? levelno l.

(** An emitted record; [exc_info] holds the exception whose traceback is
    attached ([exc_info=True]). *)
Record LogRecord : Type :=
  mk_record { levelname : log_level; message : pystr; exc_info : option pyexc }.

(** ** gRPC: status codes and the servicer context *)

Inductive StatusCode : Type :=
| OK | CANCELLED | UNKNOWN | INVALID_ARGUMENT | DEADLINE_EXCEEDED | NOT_FOUND
| ALREADY_EXISTS | PERMISSION_DENIED | RESOURCE_EXHAUSTED | FAILED_PRECONDITION
| ABORTED | OUT_OF_RANGE | UNIMPLEMENTED | INTERNAL | UNAVAILABLE | DATA_LOSS
| UNAUTHENTICATED.

Inductive context_call : Type :=
| set_code (c : StatusCode)
| set_details (d : pystr).

(** The context of one call, as the calls the handler made on it, oldest
    first.  A context on which no code was set completes with [OK]. *)
Definition ServicerContext := list context_call.

Fixpoint code (ctx : ServicerContext) : option StatusCode :=
  match ctx with
  | [] => None
  | set_code c :: rest =>
      match code rest with Some c' => Some c' | None => Some c end
  | set_details _ :: rest => code rest
  end.

Fixpoint details (ctx : ServicerContext) : option pystr :=
  match ctx with
  | [] => None
  | set_details d :: rest =>
      match details rest with Some d' => Some d' | None => Some d end
  | set_code _ :: rest => details rest
  end.

(** ** The protobuf messages *)

Record GetNodesRequest : Type := mk_request { kubeconfig_base64 : pystr }.
Record GetNodesResponse : Type := mk_response { nodes : list pystr }.

(** [GetNodesResponse()]: the repeated field is empty. *)
Definition empty_response : GetNodesResponse := mk_response [].

(** ** The handler *)

Section Handler.

(** Instances of [krkn_lib.k8s.KrknKubernetes]. *)
Variable client : Type.

(** The cluster-client library together with the cluster behind it: what the
    constructor answers for [(kubeconfig_path, kubeconfig_string)] and what
    [list_nodes] answers on a client. *)
Record cluster_library : Type := mk_library {
  KrknKubernetes : pystr -> pystr -> result client;
  list_nodes : client -> result (list pystr)
}.

(** A call into the library; [list_nodes] is the call that queries the
    cluster over the network. *)
Inductive library_call : Type :=
| new_KrknKubernetes (kubeconfig_path kubeconfig_string : pystr)
| do_list_nodes (c : client).

Record state : Type := mk_state {
  log : list LogRecord;
  context : ServicerContext;
  library_calls : list library_call
}.

(** Statements run in a state and either yield a value or raise. *)
Definition M (A : Type) : Type := state -> result A * state.

Definition ret {A} (a : A) : M A := fun s => (Val a, s).

Definition bind {A B} (m : M A) (k : A -> M B) : M B :=
  fun s =>
    match m s with
    | (Val a, s') => k a s'
    | (Raise e, s') => (Raise e, s')
    end.

Definition lift {A} (r : result A) : M A := fun s => (r, s).

(** [try: body / except Exception as e: handler]: an exception that is not
    an instance of [Exception] is not caught. *)
Definition try_except_Exception {A} (body : M A) (handler : pyexc -> M A) : M A :=
  fun s =>
    match body s with
    | (Val a, s') => (Val a, s')
    | (Raise e, s') =>
        if isinstance_Exception e then handler e s' else (Raise e, s')
    end.

Notation "x <- m ;; k" := (bind m (fun x => k))
  (at level 61, m at next level, right associativity).
Notation "m ;; k" := (bind m (fun _ => k))
  (at level 61, right associativity).

Definition logger_emit (l : log_level) (msg : pystr) (exc : option pyexc) : M unit :=
  fun s =>
    (Val tt,
     if isEnabledFor l
     then mk_state (log s ++ [mk_record l msg exc]) (context s) (library_calls s)
     else s).

Definition logger_debug (msg : pystr) : M unit := logger_emit DEBUG msg None.
Definition logger_info (msg : pystr) : M unit := logger_emit INFO msg None.
Definition logger_error (msg : pystr) (exc : option pyexc) : M unit :=
  logger_emit ERROR msg exc.

Definition context_do (c : context_call) : M unit :=
  fun s => (Val tt, mk_state (log s) (context s ++ [c]) (library_calls s)).

Definition library_do {A} (c : library_call) (r : result A) : M A :=
  fun s => (r, mk_state (log s) (context s) (library_calls s ++ [c])).

Variable lib : cluster_library.

(** The [try] block of [GetNodes]. *)
Definition GetNodes_try (request : GetNodesRequest) : M GetNodesResponse :=
  logger_info (py "Received GetNodes request") ;;
  raw <- lift (Base64.b64decode (kubeconfig_base64 request)) ;;
  kubeconfig_decoded <- lift (Utf8.decode raw) ;;
  logger_debug (py "Kubeconfig decoded successfully") ;;
  krkn_k8s <- library_do (new_KrknKubernetes empty_str kubeconfig_decoded)
                         (KrknKubernetes lib empty_str kubeconfig_decoded) ;;
  logger_info (py "KrknKubernetes initialized successfully") ;;
  logger_info (py "kubeconfig " ++ kubeconfig_decoded) ;;
  nodes <- library_do (do_list_nodes krkn_k8s) (list_nodes lib krkn_k8s) ;;
  logger_info (py "Retrieved " ++ str_int (N.of_nat (List.length nodes))
               ++ py " nodes from cluster") ;;
  ret (mk_response nodes).

(** The [except Exception as e] block. *)
Definition GetNodes_except (e : pyexc) : M GetNodesResponse :=
  logger_error (py "Error in GetNodes: " ++ exc_str e) (Some e) ;;
  context_do (set_code INTERNAL) ;;
  context_do (set_details (py "Failed to get nodes: " ++ exc_str e)) ;;
  ret empty_response.

(** [DataProviderServicer.GetNodes(self, request, context)]; the servicer has
    no attributes. *)
Definition GetNodes (request : GetNodesRequest) : M GetNodesResponse :=
  try_except_Exception (GetNodes_try request) GetNodes_except.

(** The credential text the handler hands to the client constructor. *)
Definition credential_text (request : GetNodesRequest) : result pystr :=
  result_bind (Base64.b64decode (kubeconfig_base64 request)) Utf8.decode.

End Handler.

Arguments mk_library {client} _ _.
Arguments KrknKubernetes {client} _ _ _.
Arguments list_nodes {client} _ _.
Arguments new_KrknKubernetes {client} _ _.
Arguments do_list_nodes {client} _.
Arguments mk_state {client} _ _ _.
Arguments log {client} _.
Arguments context {client} _.
Arguments library_calls {client} _.
Arguments GetNodes_try {client} _ _ _.
Arguments GetNodes_except {client} _ _.
Arguments GetNodes {client} _ _ _.

(** ** The steps at which the [try] block can raise *)

Inductive failing_step : Type := in_decode | in_construction | in_listing.

Section Failures.

Context {client : Type} (lib : cluster_library client).

(** [raises_at request step e calls]: serving [request], [step] raises [e],
    the library having been called with [calls] by then. *)
Inductive raises_at (request : GetNodesRequest)
  : failing_step -> pyexc -> list (library_call client) -> Prop :=
| raises_in_decode e :
    credential_text request = Raise e ->
    raises_at request in_decode e []
| raises_in_construction text e :
    credential_text request = Val text ->
    KrknKubernetes lib empty_str text = Raise e ->
    raises_at request in_construction e [new_KrknKubernetes empty_str text]
| raises_in_listing text c e :
    credential_text request = Val text ->
    KrknKubernetes lib empty_str text = Val c ->
    list_nodes lib c = Raise e ->
    raises_at request in_listing e
              [new_KrknKubernetes empty_str text; do_list_nodes c].

End Failures.

(** ** RFC 4648: well-formed base64 text *)

Module Rfc4648.

Definition alphabet (c : N) : bool :=
  ((65 <=? c) && (c <=? 90)) || ((97 <=? c) && (c <=? 122))
  || ((48 <=? c) && (c <=? 57)) || (c =? 43) || (c =? 47).

Definition pad (c : N) : bool := c =? 61.

(** Groups of four alphabet characters, the last group possibly ending in
    one or two pad characters. *)
Fixpoint valid_base64 (s : pystr) : bool :=
  match s with
  | [] => true
  | a :: b :: c :: d :: rest =>
      alphabet a && alphabet b &&
      match rest with
      | [] => (alphabet c && (alphabet d || pad d)) || (pad c && pad d)
      | _ :: _ => alphabet c && alphabet d && valid_base64 rest
      end
  | _ => false
  end.

(** The alphabet character of a 6-bit value. *)
Definition b2a (v : N) : N :=
  if v <? 26 then 65 + v
  else if v <? 52 then 71 + v
  else if v <? 62 then v - 4
  else if v =? 62 then 43
  else 47.

Fixpoint b64encode (b : pybytes) : pystr :=
  match b with
  | [] => []
  | [x] => [b2a (x / 4); b2a (x mod 4 * 16); 61; 61]
  | [x; y] => [b2a (x / 4); b2a (x mod 4 * 16 + y / 16); b2a (y mod 16 * 4); 61]
  | x :: y :: z :: rest =>
      b2a (x / 4) :: b2a (x mod 4 * 16 + y / 16)
      :: b2a (y mod 16 * 4 + z / 64) :: b2a (z mod 64) :: b64encode rest
  end.

End Rfc4648.

(** ** RFC 3629: well-formed UTF-8 *)

Module Rfc3629.

(** Unicode scalar values: code points up to U+10FFFF outside the surrogate
    range. *)
Definition scalar_value (c : codepoint) : Prop :=
  c < 0xD800 \/ (0xDFFF < c /\ c <= 0x10FFFF).

Definition encode_char (c : codepoint) : pybytes :=
  if c <? 0x80 then [c]
  else if c <? 0x800 then [0xC0 + c / 64; 0x80 + c mod 64]
  else if c <? 0x10000 then
    [0xE0 + c / 4096; 0x80 + c / 64 mod 64; 0x80 + c mod 64]
  else [0xF0 + c / 262144; 0x80 + c / 4096 mod 64;
        0x80 + c / 64 mod 64; 0x80 + c mod 64].

Definition encode (s : pystr) : pybytes := flat_map encode_char s.

(** A byte sequence is valid UTF-8 when it encodes a sequence of scalar
    values. *)
Definition valid_utf8 (b : pybytes) : Prop :=
  exists s, Forall scalar_value s /\ encode s = b.

End Rfc3629.

(** [sub] occurs in [s]. *)
Definition contains (s sub : pystr) : Prop :=
  exists before after, s = before ++ sub ++ after.

(** ** Sample clusters and requests *)

Module Sample.

(** A client that remembers the credential text it was built from. *)
Definition client : Type := pystr.

Definition kubeconfig : pystr := py "apiVersion: v1".

Definition cluster_of (names : list pystr) : cluster_library client :=
  mk_library (fun _ text => Val text) (fun _ => Val names).

Definition three_nodes : cluster_library client :=
  cluster_of [py "a"; py "b"; py "c"].

Definition no_nodes : cluster_library client := cluster_of [].

Definition ApiException : exc_class := Derived "ApiException" Exception.

Definition kubeconfig_rejected : pyexc :=
  mk_exc Exception (py "failed to validate kubeconfig").

Definition service_unavailable : pyexc :=
  mk_exc ApiException (py "(503) Service Unavailable").

(** What [sys.exit(1)] raises. *)
Definition exit_1 : pyexc := mk_exc SystemExit (py "1").

(** The constructor refuses every credential. *)
Definition rejecting : cluster_library client :=
  mk_library (fun _ _ => Raise kubeconfig_rejected) (fun _ => Val []).

(** The cluster cannot be reached. *)
Definition unreachable : cluster_library client :=
  mk_library (fun _ text => Val text) (fun _ => Raise service_unavailable).

(** The constructor leaves through [sys.exit(1)]. *)
Definition exiting_constructor : cluster_library client :=
  mk_library (fun _ _ => Raise exit_1) (fun _ => Val []).

(** [list_nodes] leaves through [sys.exit(1)]. *)
Definition exiting_listing : cluster_library client :=
  mk_library (fun _ text => Val text) (fun _ => Raise exit_1).

(** The base64 of [kubeconfig]. *)
Definition good_request : GetNodesRequest := mk_request (py "YXBpVmVyc2lvbjogdjE=").

(** The same with a character outside the alphabet inserted. *)
Definition starred_request : GetNodesRequest :=
  mk_request (py "YXBp*VmVyc2lvbjogdjE=").

Definition empty_request : GetNodesRequest := mk_request [].

(** A truncated group: two data characters and no padding. *)
Definition unpadded_request : GetNodesRequest := mk_request (py "YQ").

(** The base64 of the bytes [ff fe]. *)
Definition not_utf8_request : GetNodesRequest := mk_request (py "//4=").

(** Before the call: nothing logged, a fresh context, no library call. *)
Definition fresh : state client := mk_state [] [] [].

End Sample.

(** ** What the handler writes *)

Definition received : LogRecord :=
  mk_record INFO (py "Received GetNodes request") None.
Definition initialized : LogRecord :=
  mk_record INFO (py "KrknKubernetes initialized successfully") None.
Definition kubeconfig_logged (text : pystr) : LogRecord :=
  mk_record INFO (py "kubeconfig " ++ text) None.
Definition retrieved (n : nat) : LogRecord :=
  mk_record INFO (py "Retrieved " ++ str_int (N.of_nat n)
                  ++ py " nodes from cluster") None.
Definition error_logged (e : pyexc) : LogRecord :=
  mk_record ERROR (py "Error in GetNodes: " ++ exc_str e) (Some e).

Definition internal_error (e : pyexc) : list context_call :=
  [set_code INTERNAL; set_details (py "Failed to get nodes: " ++ exc_str e)].

(** What the [try] block has logged when [step] raises. *)
Definition logged_until (step : failing_step) (request : GetNodesRequest)
  : list LogRecord :=
  match step, credential_text request with
  | in_listing, Val text => [received; initialized; kubeconfig_logged text]
  | _, _ => [received]
  end.

(** ** Names for parts of the base64 decoder *)

(** The characters [a2b_base64] looks at: the alphabet and the pad. *)
Definition significant (c : N) : bool := Rfc4648.alphabet c || Rfc4648.pad c.

(** The three bytes written for a group of four 6-bit values. *)
Definition byte1 (v1 v2 : N) : N :=
  Base64.u8 (N.lor (N.shiftl v1 2) (N.shiftr v2 4)).
Definition byte2 (v2 v3 : N) : N :=
  Base64.u8 (N.lor (N.shiftl (N.land v2 15) 4) (N.shiftr v3 2)).
Definition byte3 (v3 v4 : N) : N :=
  Base64.u8 (N.lor (N.shiftl (N.land v3 3) 6) v4).

Definition all_bytes : list N := map N.of_nat (seq 0 256).

(** ** [serve]

    The calls [serve] makes on the gRPC server object, and what it logs.
    [wait_for_termination] either returns ([terminated]) or is broken by
    [KeyboardInterrupt] in the main thread ([interrupted]). *)

Inductive server_call : Type :=
| grpc_server (max_workers : N)
| add_DataProviderServiceServicer_to_server
| add_insecure_port (address : pystr)
| start
| wait_for_termination
| stop (grace : N).

Inductive termination : Type := terminated | interrupted.

Definition serve (port : N) (t : termination)
  : list server_call * list LogRecord :=
  let server_address := py "[::]:" ++ str_int port in
  ([grpc_server 10;
    add_DataProviderServiceServicer_to_server;
    add_insecure_port server_address;
    start;
    wait_for_termination]
   ++ match t with
      | terminated => []
      | interrupted => [stop 0]
      end,
   [mk_record INFO (py "Starting gRPC server on " ++ server_address) None;
    mk_record INFO (py "gRPC server started successfully") None]
   ++ match t with
      | terminated => []
      | interrupted =>
          [mk_record INFO (py "Shutting down gRPC server...") None;
           mk_record INFO (py "gRPC server stopped") None]
      end).

(** ** More sample requests *)

Module MoreSamples.

(** The text ["clé"]. *)
Definition accented : pystr := [99; 108; 233].

(** A field with a character outside ASCII: ["é"] alone. *)
Definition non_ascii_request : GetNodesRequest := mk_request [233].

(** The sample credential followed by text after its padding. *)
Definition trailing_request : GetNodesRequest :=
  mk_request (py "YXBpVmVyc2lvbjogdjE=garbage").

(** Five alphabet characters, no padding. *)
Definition five_characters : pystr := py "YWJjZ".

(** The base64 of a byte order mark followed by ["a"]. *)
Definition bom_request : GetNodesRequest := mk_request (py "77u/YQ==").

End MoreSamples.

(** * Properties *)

Arguments py : simpl never.
Arguments str_int : simpl never.
Arguments Base64.b64decode : simpl never.
Arguments Utf8.decode : simpl never.

Import Base64 Rfc4648 Utf8 Rfc3629.

Ltac bools :=
  repeat match goal with
  | H : negb _ = true |- _ => apply negb_true_iff in H
  | H : negb _ = false |- _ => apply negb_false_iff in H
  | H : (_ && _) = true |- _ => apply andb_true_iff in H; destruct H
  | H : (_ || _) = false |- _ => apply orb_false_iff in H; destruct H
  | H : (_ && _) = false |- _ => apply andb_false_iff in H; destruct H
  | H : (_ || _) = true |- _ => apply orb_true_iff in H; destruct H
  | H : (_ <? _) = true |- _ => apply N.ltb_lt in H
  | H : (_ <? _) = false |- _ => apply N.ltb_ge in H
  | H : (_ <=? _) = true |- _ => apply N.leb_le in H
  | H : (_ <=? _) = false |- _ => apply N.leb_gt in H
  | H : (_ =? _) = true |- _ => apply N.eqb_eq in H
  | H : (_ =? _) = false |- _ => apply N.eqb_neq in H
  end.

(** Decide each [if] of the goal, discarding the branches arithmetic rules
    out. *)
Ltac pick_branch :=
  repeat match goal with
  | |- context [if ?b then _ else _] =>
      let E := fresh "E" in
      destruct b eqn:E; bools; try (exfalso; lia)
  end.

(** ** The servicer context *)

Lemma code_app_set_code ctx c tail :
  code tail = None -> code (ctx ++ set_code c :: tail) = Some c.
Proof.
  intros Ht. induction ctx as [|[c0|d0] ctx IH]; simpl.
  - now rewrite Ht.
  - now rewrite IH.
  - exact IH.
Qed.

Lemma details_app_set_details ctx d tail :
  details tail = None -> details (ctx ++ set_details d :: tail) = Some d.
Proof.
  intros Ht. induction ctx as [|[c0|d0] ctx IH]; simpl.
  - now rewrite Ht.
  - exact IH.
  - now rewrite IH.
Qed.

Lemma code_internal ctx d :
  code (ctx ++ [set_code INTERNAL; set_details d]) = Some INTERNAL.
Proof. now apply code_app_set_code. Qed.

Lemma details_failed ctx c d :
  details (ctx ++ [set_code c; set_details d]) = Some d.
Proof.
  change (ctx ++ [set_code c; set_details d])
    with (ctx ++ [set_code c] ++ [set_details d]).
  rewrite app_assoc. now apply details_app_set_details.
Qed.

Lemma contains_suffix (prefix s : pystr) : contains (prefix ++ s) s.
Proof. exists prefix, []. now rewrite app_nil_r. Qed.

(** ** The handler, path by path *)

Section Paths.

Context {client : Type} (lib : cluster_library client).
Implicit Types (request : GetNodesRequest) (s : state client) (e : pyexc).

Ltac run_handler :=
  unfold GetNodes, try_except_Exception, GetNodes_try, GetNodes_except,
    bind, lift, ret, logger_info, logger_debug, logger_error, logger_emit,
    context_do, library_do;
  cbn [isEnabledFor levelno configured_level N.leb N.compare Pos.compare
       Pos.compare_cont log context library_calls fst snd].

Ltac split_credential H :=
  unfold credential_text, result_bind in H;
  let raw := fresh "raw" in
  let Hraw := fresh "Hraw" in
  destruct (Base64.b64decode _) as [raw|?] eqn:Hraw; [|try discriminate H].

(** Success: the four informational records, an untouched context, the two
    library calls, and the listed names in the response. *)
Lemma GetNodes_succeeds request text c names s :
  credential_text request = Val text ->
  KrknKubernetes lib empty_str text = Val c ->
  list_nodes lib c = Val names ->
  GetNodes lib request s =
    (Val (mk_response names),
     mk_state (log s ++ [received; initialized; kubeconfig_logged text;
                         retrieved (List.length names)])
              (context s)
              (library_calls s ++ [new_KrknKubernetes empty_str text;
                                   do_list_nodes c])).
Proof.
  intros Ht Hc Hn. split_credential Ht.
  run_handler. rewrite Hraw, Ht. cbn. rewrite Hc. cbn. rewrite Hn. cbn.
  now rewrite <- !app_assoc.
Qed.

(** The body raising [e]: where it stops, what was logged and called. *)
Lemma GetNodes_try_raises request step e calls s :
  raises_at lib request step e calls ->
  GetNodes_try lib request s =
    (Raise e,
     mk_state (log s ++ logged_until step request)
              (context s)
              (library_calls s ++ calls)).
Proof.
  unfold logged_until.
  intros [e' Ht | text e' Ht Hc | text c e' Ht Hc Hn].
  - unfold credential_text, result_bind in Ht. run_handler.
    destruct (Base64.b64decode _) as [raw|e0] eqn:Hraw.
    + rewrite Ht. cbn. now rewrite app_nil_r.
    + injection Ht as ->. cbn. now rewrite app_nil_r.
  - split_credential Ht. run_handler. rewrite Hraw, Ht. cbn. now rewrite Hc.
  - rewrite Ht. split_credential Ht. run_handler. rewrite Hraw, Ht. cbn.
    rewrite Hc. cbn. rewrite Hn. cbn. now rewrite <- !app_assoc.
Qed.

(** The body raises only through one of the three steps. *)
Lemma GetNodes_try_raises_inv request e s s' :
  GetNodes_try lib request s = (Raise e, s') ->
  exists step calls, raises_at lib request step e calls.
Proof.
  unfold GetNodes_try, bind, lift, ret, logger_info, logger_debug,
    logger_emit, library_do. cbn.
  destruct (Base64.b64decode (kubeconfig_base64 request)) as [raw|e0] eqn:Hraw.
  - destruct (Utf8.decode raw) as [text|e1] eqn:Htext.
    + assert (Ht : credential_text request = Val text)
        by (unfold credential_text; now rewrite Hraw).
      cbn. destruct (KrknKubernetes lib empty_str text) as [c|e2] eqn:Hc.
      * cbn. destruct (list_nodes lib c) as [names|e3] eqn:Hn; cbn.
        -- discriminate.
        -- intros [= <- _]. exists in_listing. eexists.
           eapply raises_in_listing; eassumption.
      * intros [= <- _]. exists in_construction. eexists.
        eapply raises_in_construction; eassumption.
    + intros [= <- _]. exists in_decode, []. constructor.
      unfold credential_text. now rewrite Hraw.
  - intros [= <- _]. exists in_decode, []. constructor.
    unfold credential_text. now rewrite Hraw.
Qed.

(** An [Exception] raised by the body is answered with [INTERNAL], a message
    ending in [str(e)], and the empty response; whatever the body logged and
    called stays. *)
Lemma GetNodes_catches request e s s1 :
  GetNodes_try lib request s = (Raise e, s1) ->
  isinstance_Exception e = true ->
  GetNodes lib request s =
    (Val empty_response,
     mk_state (log s1 ++ [error_logged e])
              (context s1 ++ internal_error e)
              (library_calls s1)).
Proof.
  intros Hbody Hexc. unfold GetNodes, try_except_Exception.
  rewrite Hbody, Hexc. unfold GetNodes_except. run_handler.
  now rewrite <- app_assoc.
Qed.

(** Anything else raised by the body leaves the handler. *)
Lemma GetNodes_propagates request e s s1 :
  GetNodes_try lib request s = (Raise e, s1) ->
  isinstance_Exception e = false ->
  GetNodes lib request s = (Raise e, s1).
Proof.
  intros Hbody Hexc. unfold GetNodes, try_except_Exception.
  now rewrite Hbody, Hexc.
Qed.

End Paths.
(** ** [bytes.decode('utf-8')] against RFC 3629 *)

Lemma continuation_range ch :
  IS_CONTINUATION_BYTE ch = true <-> 0x80 <= ch < 0xC0.
Proof.
  unfold IS_CONTINUATION_BYTE. rewrite andb_true_iff, N.leb_le, N.ltb_lt. tauto.
Qed.

Lemma encode_two ch ch2 :
  0xC2 <= ch < 0xE0 -> 0x80 <= ch2 < 0xC0 ->
  let c := N.shiftl ch 6 + ch2 - (N.shiftl 0xC0 6 + 0x80) in
  encode_char c = [ch; ch2] /\ scalar_value c.
Proof.
  intros H1 H2. rewrite !N.shiftl_mul_pow2. change (2 ^ 6) with 64.
  cbv zeta. unfold encode_char, scalar_value. pick_branch.
  split; [|lia]. f_equal; [|f_equal]; lia.
Qed.

Lemma encode_three ch ch2 ch3 :
  0xE0 <= ch < 0xF0 -> 0x80 <= ch2 < 0xC0 -> 0x80 <= ch3 < 0xC0 ->
  (ch = 0xE0 -> 0xA0 <= ch2) -> (ch = 0xED -> ch2 < 0xA0) ->
  let c := N.shiftl ch 12 + N.shiftl ch2 6 + ch3
           - (N.shiftl 0xE0 12 + N.shiftl 0x80 6 + 0x80) in
  encode_char c = [ch; ch2; ch3] /\ scalar_value c.
Proof.
  intros H1 H2 H3 Hlow Hsur. rewrite !N.shiftl_mul_pow2.
  change (2 ^ 6) with 64. change (2 ^ 12) with 4096.
  cbv zeta. unfold encode_char, scalar_value. pick_branch.
  split; [|lia]. repeat f_equal; lia.
Qed.

Lemma encode_four ch ch2 ch3 ch4 :
  0xF0 <= ch < 0xF5 -> 0x80 <= ch2 < 0xC0 -> 0x80 <= ch3 < 0xC0 ->
  0x80 <= ch4 < 0xC0 ->
  (ch = 0xF0 -> 0x90 <= ch2) -> (ch = 0xF4 -> ch2 < 0x90) ->
  let c := N.shiftl ch 18 + N.shiftl ch2 12 + N.shiftl ch3 6 + ch4
           - (N.shiftl 0xF0 18 + N.shiftl 0x80 12 + N.shiftl 0x80 6 + 0x80) in
  encode_char c = [ch; ch2; ch3; ch4] /\ scalar_value c.
Proof.
  intros H1 H2 H3 H4 Hlow Hhigh. rewrite !N.shiftl_mul_pow2.
  change (2 ^ 6) with 64. change (2 ^ 12) with 4096.
  change (2 ^ 18) with 262144.
  cbv zeta. unfold encode_char, scalar_value. pick_branch.
  split; [|lia]. repeat f_equal; lia.
Qed.

Lemma emit_Val c r s :
  emit c r = Val s -> exists s', r = Val s' /\ s = c :: s'.
Proof.
  destruct r as [s'|e]; cbn; [|discriminate].
  intros [= <-]. now exists s'.
Qed.

Lemma utf8_decode_sound n : forall b pos s,
  (List.length b <= n)%nat ->
  utf8_decode b pos = Val s ->
  Forall scalar_value s /\ encode s = b.
Proof.
  induction n as [|n IH]; intros b pos s Hlen.
  - destruct b; [|cbn in Hlen; lia]. cbn. intros [= <-]. now split.
  - destruct b as [|ch s1]; [cbn; intros [= <-]; now split|].
    cbn [utf8_decode].
    destruct (ch <? 0x80) eqn:E1.
    { intros H. apply emit_Val in H as (s' & H & ->).
      apply IH in H as [Hs He]; [|cbn in Hlen; lia].
      bools. split.
      - constructor; [left; lia|assumption].
      - cbn. unfold encode_char. rewrite (proj2 (N.ltb_lt _ _) E1). cbn. now f_equal. }
    destruct (ch <? 0xE0) eqn:E2.
    { destruct (ch <? 0xC2) eqn:E3; [discriminate|].
      destruct s1 as [|ch2 s2]; [discriminate|].
      destruct (IS_CONTINUATION_BYTE ch2) eqn:C2; [|discriminate]. cbn [negb].
      intros H. apply emit_Val in H as (s' & H & ->).
      apply IH in H as [Hs He]; [|cbn in Hlen; lia].
      apply continuation_range in C2. bools.
      destruct (encode_two ch ch2) as [Henc Hsc]; [lia|lia|].
      split; [constructor; assumption|].
      change (encode (?c :: s')) with (encode_char c ++ encode s').
      rewrite Henc, He. reflexivity. }
    destruct (ch <? 0xF0) eqn:E3.
    { destruct s1 as [|ch2 [|ch3 s3]]; [discriminate| |].
      { destruct (negb _ || _); discriminate. }
      destruct (IS_CONTINUATION_BYTE ch2) eqn:C2; [|discriminate]. cbn [negb].
      destruct ((ch =? 0xE0) && (ch2 <? 0xA0)) eqn:G1; [discriminate|].
      destruct (negb (ch =? 0xE0) && (ch =? 0xED) && (0xA0 <=? ch2)) eqn:G2;
        [discriminate|].
      destruct (IS_CONTINUATION_BYTE ch3) eqn:C3; [|discriminate]. cbn [negb].
      intros H. apply emit_Val in H as (s' & H & ->).
      apply IH in H as [Hs He]; [|cbn in Hlen; lia].
      apply continuation_range in C2, C3. bools;
        (destruct (encode_three ch ch2 ch3) as [Henc Hsc]; try lia;
         (split; [constructor; assumption|];
          change (encode (?c :: s')) with (encode_char c ++ encode s');
          rewrite Henc, He; reflexivity)). }
    destruct (ch <? 0xF5) eqn:E4; [|discriminate].
    destruct s1 as [|ch2 [|ch3 [|ch4 s4]]]; [discriminate| | |].
    { destruct (negb _ || _); discriminate. }
    { destruct (negb _ || _); [discriminate|]. destruct (negb _); discriminate. }
    destruct (IS_CONTINUATION_BYTE ch2) eqn:C2; [|discriminate]. cbn [negb].
    destruct ((ch =? 0xF0) && (ch2 <? 0x90)) eqn:G1; [discriminate|].
    destruct (negb (ch =? 0xF0) && (ch =? 0xF4) && (0x90 <=? ch2)) eqn:G2;
      [discriminate|].
    destruct (IS_CONTINUATION_BYTE ch3) eqn:C3; [|discriminate]. cbn [negb].
    destruct (IS_CONTINUATION_BYTE ch4) eqn:C4; [|discriminate]. cbn [negb].
    intros H. apply emit_Val in H as (s' & H & ->).
    apply IH in H as [Hs He]; [|cbn in Hlen; lia].
    apply continuation_range in C2, C3, C4. bools;
      (destruct (encode_four ch ch2 ch3 ch4) as [Henc Hsc]; try lia;
       (split; [constructor; assumption|];
        change (encode (?c :: s')) with (encode_char c ++ encode s');
        rewrite Henc, He; reflexivity)).
Qed.

Lemma utf8_decode_char c rest pos :
  scalar_value c ->
  exists pos', utf8_decode (encode_char c ++ rest) pos
               = emit c (utf8_decode rest pos').
Proof.
  unfold scalar_value, encode_char. intros Hc.
  destruct (c <? 0x80) eqn:R1.
  { exists (pos + 1). cbn [List.app utf8_decode]. now rewrite R1. }
  destruct (c <? 0x800) eqn:R2.
  { exists (pos + 2). cbn [List.app utf8_decode]. unfold IS_CONTINUATION_BYTE.
    rewrite !N.shiftl_mul_pow2. change (2 ^ 6) with 64. bools.
    pick_branch. cbn [negb]. pick_branch. f_equal. lia. }
  destruct (c <? 0x10000) eqn:R3.
  { exists (pos + 3). cbn [List.app utf8_decode]. unfold IS_CONTINUATION_BYTE.
    rewrite !N.shiftl_mul_pow2. change (2 ^ 6) with 64.
    change (2 ^ 12) with 4096. bools.
    pick_branch; cbn [negb andb orb]; pick_branch; f_equal; lia. }
  exists (pos + 4). cbn [List.app utf8_decode]. unfold IS_CONTINUATION_BYTE.
  rewrite !N.shiftl_mul_pow2. change (2 ^ 6) with 64.
  change (2 ^ 12) with 4096. change (2 ^ 18) with 262144. bools.
  pick_branch; cbn [negb andb orb]; pick_branch; f_equal; lia.
Qed.

Lemma utf8_decode_encode s :
  Forall scalar_value s -> forall pos, utf8_decode (encode s) pos = Val s.
Proof.
  induction 1 as [|c s Hc _ IH]; intros pos; [reflexivity|].
  change (encode (c :: s)) with (encode_char c ++ encode s).
  destruct (utf8_decode_char c (encode s) pos Hc) as [pos' ->].
  now rewrite IH.
Qed.

Lemma emit_Raise c r e : emit c r = Raise e -> r = Raise e.
Proof. destruct r; cbn; congruence. Qed.

Lemma utf8_decode_raises n : forall b pos e,
  (List.length b <= n)%nat ->
  utf8_decode b pos = Raise e ->
  exc_class_of e = UnicodeDecodeError.
Proof.
  induction n as [|n IH]; intros b pos e Hlen H.
  - destruct b; [discriminate H|cbn in Hlen; lia].
  - destruct b as [|ch s1]; [discriminate H|].
    cbn [utf8_decode] in H.
    repeat match type of H with
           | context [match ?x with _ => _ end] => destruct x
           end;
      try discriminate H;
      try (injection H as <-; reflexivity);
      apply emit_Raise in H; apply IH in H; try assumption;
      cbn in Hlen |- *; lia.
Qed.

(** [bytes.decode('utf-8')] succeeds exactly on valid UTF-8, and then yields
    the encoded text. *)
Lemma decode_Val_iff b s :
  decode b = Val s <-> Forall scalar_value s /\ encode s = b.
Proof.
  unfold decode. split.
  - apply (utf8_decode_sound (List.length b)). lia.
  - intros [Hs <-]. now apply utf8_decode_encode.
Qed.

Lemma decode_invalid b :
  ~ valid_utf8 b ->
  exists e, decode b = Raise e /\ exc_class_of e = UnicodeDecodeError.
Proof.
  intros Hinv. destruct (decode b) as [s|e] eqn:Hd.
  - exfalso. apply Hinv. exists s. now apply decode_Val_iff.
  - exists e. split; [reflexivity|].
    apply (utf8_decode_raises (List.length b) b 0); [lia|exact Hd].
Qed.

(** ** [base64.b64decode] against RFC 4648 *)

(** *** The decoding table *)

Lemma table_alphabet c :
  alphabet c = true -> table_a2b_base64 c < 64 /\ c <> BASE64_PAD /\ c < 128.
Proof.
  unfold alphabet, table_a2b_base64, BASE64_PAD. intros H.
  bools; pick_branch; lia.
Qed.

Lemma table_other c :
  alphabet c = false -> c <> BASE64_PAD -> table_a2b_base64 c = 255.
Proof.
  unfold alphabet, table_a2b_base64, BASE64_PAD. intros H Hp.
  bools; pick_branch; lia.
Qed.

Lemma table_b2a v : v < 64 -> table_a2b_base64 (b2a v) = v /\ alphabet (b2a v) = true.
Proof.
  intros H. split.
  - unfold b2a. pick_branch; unfold table_a2b_base64; pick_branch; lia.
  - destruct (alphabet (b2a v)) eqn:A; [reflexivity|exfalso].
    unfold b2a in A. revert A.
    pick_branch; unfold alphabet; intros A; bools; lia.
Qed.

(** *** One character of the loop *)

Lemma a2b_loop_other c rest q l p bin :
  alphabet c = false -> c <> BASE64_PAD ->
  a2b_loop (c :: rest) q l p bin = a2b_loop rest q l p bin.
Proof.
  intros Ha Hp. cbn [a2b_loop].
  rewrite (proj2 (N.eqb_neq _ _) Hp), (table_other c Ha Hp). reflexivity.
Qed.

Lemma a2b_loop_data c rest q l p bin :
  alphabet c = true ->
  a2b_loop (c :: rest) q l p bin =
    let v := table_a2b_base64 c in
    match q with
    | 0 => a2b_loop rest 1 v 0 bin
    | 1 => a2b_loop rest 2 (N.land v 15) 0
             (bin ++ [u8 (N.lor (N.shiftl l 2) (N.shiftr v 4))])
    | 2 => a2b_loop rest 3 (N.land v 3) 0
             (bin ++ [u8 (N.lor (N.shiftl l 4) (N.shiftr v 2))])
    | _ => a2b_loop rest 0 0 0 (bin ++ [u8 (N.lor (N.shiftl l 6) v)])
    end.
Proof.
  intros Ha. destruct (table_alphabet c Ha) as (Hv & Hp & _).
  cbn [a2b_loop]. rewrite (proj2 (N.eqb_neq _ _) Hp).
  cbv zeta. now rewrite (proj2 (N.leb_gt _ _) Hv).
Qed.

(** Characters outside the alphabet (other than the pad) are dropped
    without a trace. *)
Lemma a2b_loop_filter data : forall q l p bin,
  a2b_loop data q l p bin = a2b_loop (filter significant data) q l p bin.
Proof.
  induction data as [|c rest IH]; intros q l p bin; [reflexivity|].
  cbn [filter]. unfold significant at 1.
  destruct (alphabet c) eqn:Ha; cbn [orb].
  - rewrite !a2b_loop_data by assumption. cbv zeta.
    destruct q as [|[[]|[]|]]; apply IH.
  - unfold pad. destruct (c =? 61) eqn:Hp.
    + cbn [a2b_loop]. unfold BASE64_PAD. rewrite Hp.
      destruct (2 <=? q); [|apply IH].
      destruct (4 <=? q + (p + 1)); [reflexivity|apply IH].
    + rewrite a2b_loop_other; [apply IH|assumption|].
      unfold BASE64_PAD. now apply N.eqb_neq.
Qed.

Lemma a2b_base64_filter data :
  a2b_base64 data = a2b_base64 (filter significant data).
Proof. unfold a2b_base64. now rewrite a2b_loop_filter. Qed.

Lemma a2b_loop_two c1 c2 rest l p bin :
  alphabet c1 = true -> alphabet c2 = true ->
  a2b_loop (c1 :: c2 :: rest) 0 l p bin =
    a2b_loop rest 2 (N.land (table_a2b_base64 c2) 15) 0
      (bin ++ [byte1 (table_a2b_base64 c1) (table_a2b_base64 c2)]).
Proof.
  intros H1 H2. rewrite a2b_loop_data by assumption. cbv zeta iota.
  rewrite a2b_loop_data by assumption. reflexivity.
Qed.

Lemma a2b_loop_three c1 c2 c3 rest l p bin :
  alphabet c1 = true -> alphabet c2 = true -> alphabet c3 = true ->
  a2b_loop (c1 :: c2 :: c3 :: rest) 0 l p bin =
    a2b_loop rest 3 (N.land (table_a2b_base64 c3) 3) 0
      (bin ++ [byte1 (table_a2b_base64 c1) (table_a2b_base64 c2);
               byte2 (table_a2b_base64 c2) (table_a2b_base64 c3)]).
Proof.
  intros H1 H2 H3. rewrite a2b_loop_two by assumption.
  rewrite a2b_loop_data by assumption. cbv zeta iota.
  now rewrite <- app_assoc.
Qed.

Lemma a2b_loop_four c1 c2 c3 c4 rest l p bin :
  alphabet c1 = true -> alphabet c2 = true ->
  alphabet c3 = true -> alphabet c4 = true ->
  a2b_loop (c1 :: c2 :: c3 :: c4 :: rest) 0 l p bin =
    a2b_loop rest 0 0 0
      (bin ++ [byte1 (table_a2b_base64 c1) (table_a2b_base64 c2);
               byte2 (table_a2b_base64 c2) (table_a2b_base64 c3);
               byte3 (table_a2b_base64 c3) (table_a2b_base64 c4)]).
Proof.
  intros H1 H2 H3 H4. rewrite a2b_loop_three by assumption.
  rewrite a2b_loop_data by assumption. cbv zeta iota.
  now rewrite <- app_assoc.
Qed.

(** *** Well-formed base64 is accepted *)

Lemma pad_is c : pad c = true -> c = BASE64_PAD.
Proof. unfold pad, BASE64_PAD. apply N.eqb_eq. Qed.

Lemma a2b_loop_pad rest q l p bin :
  a2b_loop (BASE64_PAD :: rest) q l p bin =
    if 2 <=? q
    then if 4 <=? q + (p + 1) then Done bin
         else a2b_loop rest q l (p + 1) bin
    else a2b_loop rest q l p bin.
Proof. reflexivity. Qed.

Lemma valid_base64_loop n : forall s l p bin,
  (List.length s <= n)%nat ->
  valid_base64 s = true ->
  exists out, a2b_loop s 0 l p bin = Done out
              \/ a2b_loop s 0 l p bin = EndOfInput 0 out.
Proof.
  induction n as [|n IH]; intros s l p bin Hlen Hv.
  - destruct s; [|cbn in Hlen; lia]. exists bin. now right.
  - destruct s as [|a [|b [|c [|d rest]]]]; try discriminate Hv.
    { exists bin. now right. }
    cbn [valid_base64] in Hv.
    apply andb_true_iff in Hv as [Hab Hv].
    apply andb_true_iff in Hab as [Ha Hb].
    destruct rest as [|x rest].
    + apply orb_true_iff in Hv as [Hv|Hv];
        apply andb_true_iff in Hv as [Hc Hd].
      * apply orb_true_iff in Hd as [Hd|Hd].
        -- rewrite a2b_loop_four by assumption. eexists. right. reflexivity.
        -- rewrite a2b_loop_three by assumption.
           rewrite (pad_is d Hd), a2b_loop_pad. cbn. eexists. left. reflexivity.
      * rewrite a2b_loop_two by assumption.
        rewrite (pad_is c Hc), (pad_is d Hd), !a2b_loop_pad. cbn.
        eexists. left. reflexivity.
    + apply andb_true_iff in Hv as [Hcd Hv].
      apply andb_true_iff in Hcd as [Hc Hd].
      rewrite a2b_loop_four by assumption.
      apply IH; [cbn in Hlen |- *; lia|exact Hv].
Qed.

Lemma valid_base64_ascii n : forall s,
  (List.length s <= n)%nat ->
  valid_base64 s = true -> forallb (fun c => c <? 128) s = true.
Proof.
  assert (Hsig : forall c, alphabet c = true \/ pad c = true -> (c <? 128) = true).
  { intros c [Hc|Hc]; apply N.ltb_lt.
    - now apply table_alphabet.
    - apply pad_is in Hc. subst c. reflexivity. }
  induction n as [|n IH]; intros s Hlen Hv.
  - destruct s; [reflexivity|cbn in Hlen; lia].
  - destruct s as [|a [|b [|c [|d rest]]]]; try discriminate Hv; [reflexivity|].
    cbn [valid_base64] in Hv.
    apply andb_true_iff in Hv as [Hab Hv].
    apply andb_true_iff in Hab as [Ha Hb].
    cbn [forallb]. rewrite (Hsig a), (Hsig b) by auto. cbn [andb].
    destruct rest as [|x rest].
    + apply orb_true_iff in Hv as [Hv|Hv];
        apply andb_true_iff in Hv as [Hc Hd].
      * apply orb_true_iff in Hd. rewrite (Hsig c), (Hsig d) by auto. reflexivity.
      * rewrite (Hsig c), (Hsig d) by auto. reflexivity.
    + apply andb_true_iff in Hv as [Hcd Hv].
      apply andb_true_iff in Hcd as [Hc Hd].
      rewrite (Hsig c), (Hsig d) by auto. cbn [andb].
      apply IH; [cbn in Hlen |- *; lia|exact Hv].
Qed.

(** Every well-formed base64 text decodes. *)
Lemma valid_base64_decodes s :
  valid_base64 s = true -> exists b, b64decode s = Val b.
Proof.
  intros Hv. unfold b64decode, bytes_from_decode_data.
  rewrite (valid_base64_ascii (List.length s) s (le_n _) Hv). cbn [result_bind].
  unfold a2b_base64.
  destruct (valid_base64_loop (List.length s) s 0 0 [] (le_n _) Hv)
    as [out [-> | ->]]; now exists out.
Qed.

(** What [b64decode] raises is a [ValueError] or a [binascii.Error], both
    instances of [Exception]. *)
Lemma b64decode_raises s e :
  b64decode s = Raise e ->
  exc_class_of e = ValueError \/ exc_class_of e = binascii_Error.
Proof.
  unfold b64decode, bytes_from_decode_data.
  destruct (forallb (fun c => c <? 128) s); cbn [result_bind].
  - unfold a2b_base64. destruct (a2b_loop s 0 0 0 []) as [out|q out];
      [discriminate|].
    destruct (q =? 0); [discriminate|].
    destruct (q =? 1); intros [= <-]; now right.
  - intros [= <-]. now left.
Qed.

(** *** Encoding then decoding *)

Lemma in_all_bytes x : x < 256 -> In x all_bytes.
Proof.
  intros Hx. unfold all_bytes. rewrite <- (N2Nat.id x).
  apply in_map, in_seq. lia.
Qed.

Lemma for_all_bytes2 (P : N -> N -> bool) :
  forallb (fun x => forallb (P x) all_bytes) all_bytes = true ->
  forall x y, x < 256 -> y < 256 -> P x y = true.
Proof.
  intros H x y Hx Hy. rewrite forallb_forall in H.
  specialize (H x (in_all_bytes x Hx)). rewrite forallb_forall in H.
  exact (H y (in_all_bytes y Hy)).
Qed.

Lemma byte1_encoded x y :
  x < 256 -> y < 256 -> byte1 (x / 4) (x mod 4 * 16 + y / 16) = x.
Proof.
  intros Hx Hy. apply N.eqb_eq.
  revert x y Hx Hy.
  apply (for_all_bytes2 (fun x y => byte1 (x / 4) (x mod 4 * 16 + y / 16) =? x)).
  vm_compute. reflexivity.
Qed.

Lemma byte2_encoded x y z :
  x < 256 -> y < 256 -> z < 256 ->
  byte2 (x mod 4 * 16 + y / 16) (y mod 16 * 4 + z / 64) = y.
Proof.
  intros Hx Hy Hz. unfold byte2.
  assert (Hl : N.land (x mod 4 * 16 + y / 16) 15 = y / 16).
  { apply N.eqb_eq. revert x y Hx Hy.
    apply (for_all_bytes2
             (fun x y => N.land (x mod 4 * 16 + y / 16) 15 =? y / 16)).
    vm_compute. reflexivity. }
  rewrite Hl. clear Hl. apply N.eqb_eq. revert y z Hy Hz.
  apply (for_all_bytes2
           (fun y z => u8 (N.lor (N.shiftl (y / 16) 4)
                                 (N.shiftr (y mod 16 * 4 + z / 64) 2)) =? y)).
  vm_compute. reflexivity.
Qed.

Lemma byte3_encoded y z :
  y < 256 -> z < 256 -> byte3 (y mod 16 * 4 + z / 64) (z mod 64) = z.
Proof.
  intros Hy Hz. apply N.eqb_eq. revert y z Hy Hz.
  apply (for_all_bytes2
           (fun y z => byte3 (y mod 16 * 4 + z / 64) (z mod 64) =? z)).
  vm_compute. reflexivity.
Qed.

Lemma b64encode_loop n : forall b l p bin,
  (List.length b <= n)%nat ->
  Forall (fun x => x < 256) b ->
  a2b_loop (b64encode b) 0 l p bin = Done (bin ++ b)
  \/ a2b_loop (b64encode b) 0 l p bin = EndOfInput 0 (bin ++ b).
Proof.
  induction n as [|n IH]; intros b l p bin Hlen Hb.
  - destruct b; [|cbn in Hlen; lia]. right. cbn. now rewrite app_nil_r.
  - destruct b as [|x [|y [|z rest]]].
    + right. cbn. now rewrite app_nil_r.
    + inversion_clear Hb as [|? ? Hx _]. cbn [b64encode].
      destruct (table_b2a (x / 4)) as [T1 A1]; [lia|].
      destruct (table_b2a (x mod 4 * 16)) as [T2 A2]; [lia|].
      rewrite a2b_loop_two by assumption. rewrite T1, T2.
      change 61 with BASE64_PAD. rewrite !a2b_loop_pad. cbn [N.leb N.add N.compare
        Pos.add Pos.compare Pos.compare_cont Pos.succ].
      left. f_equal. f_equal. f_equal.
      replace (x mod 4 * 16) with (x mod 4 * 16 + 0 / 16) by (cbn; lia).
      apply byte1_encoded; lia.
    + inversion_clear Hb as [|? ? Hx Hb']. inversion_clear Hb' as [|? ? Hy _].
      cbn [b64encode].
      destruct (table_b2a (x / 4)) as [T1 A1]; [lia|].
      destruct (table_b2a (x mod 4 * 16 + y / 16)) as [T2 A2]; [lia|].
      destruct (table_b2a (y mod 16 * 4)) as [T3 A3]; [lia|].
      rewrite a2b_loop_three by assumption. rewrite T1, T2, T3.
      change 61 with BASE64_PAD. rewrite a2b_loop_pad. cbn [N.leb N.add N.compare
        Pos.add Pos.compare Pos.compare_cont Pos.succ].
      left. f_equal. f_equal. f_equal; [apply byte1_encoded; lia|].
      f_equal.
      replace (y mod 16 * 4) with (y mod 16 * 4 + 0 / 64) by (cbn; lia).
      apply byte2_encoded; lia.
    + inversion_clear Hb as [|? ? Hx Hb']. inversion_clear Hb' as [|? ? Hy Hb].
      inversion_clear Hb as [|? ? Hz Hrest].
      cbn [b64encode].
      destruct (table_b2a (x / 4)) as [T1 A1]; [lia|].
      destruct (table_b2a (x mod 4 * 16 + y / 16)) as [T2 A2]; [lia|].
      destruct (table_b2a (y mod 16 * 4 + z / 64)) as [T3 A3]; [lia|].
      destruct (table_b2a (z mod 64)) as [T4 A4]; [lia|].
      rewrite a2b_loop_four by assumption. rewrite T1, T2, T3, T4.
      rewrite byte1_encoded, byte2_encoded, byte3_encoded by lia.
      replace (bin ++ x :: y :: z :: rest) with ((bin ++ [x; y; z]) ++ rest)
        by now rewrite <- app_assoc.
      apply IH; [cbn in Hlen |- *; lia|assumption].
Qed.

Lemma b64encode_valid n : forall b,
  (List.length b <= n)%nat ->
  Forall (fun x => x < 256) b ->
  valid_base64 (b64encode b) = true.
Proof.
  induction n as [|n IH]; intros b Hlen Hb.
  - destruct b; [reflexivity|cbn in Hlen; lia].
  - destruct b as [|x [|y [|z rest]]]; [reflexivity| | |].
    + inversion_clear Hb as [|? ? Hx _]. cbn [b64encode valid_base64].
      destruct (table_b2a (x / 4)) as [_ ->]; [lia|].
      destruct (table_b2a (x mod 4 * 16)) as [_ ->]; [lia|]. reflexivity.
    + inversion_clear Hb as [|? ? Hx Hb']. inversion_clear Hb' as [|? ? Hy _].
      cbn [b64encode valid_base64].
      destruct (table_b2a (x / 4)) as [_ ->]; [lia|].
      destruct (table_b2a (x mod 4 * 16 + y / 16)) as [_ ->]; [lia|].
      destruct (table_b2a (y mod 16 * 4)) as [_ ->]; [lia|]. reflexivity.
    + inversion_clear Hb as [|? ? Hx Hb']. inversion_clear Hb' as [|? ? Hy Hb].
      inversion_clear Hb as [|? ? Hz Hrest].
      assert (Hv : valid_base64 (b64encode rest) = true)
        by (apply IH; [cbn in Hlen; lia|assumption]).
      cbn [b64encode valid_base64].
      destruct (table_b2a (x / 4)) as [_ ->]; [lia|].
      destruct (table_b2a (x mod 4 * 16 + y / 16)) as [_ ->]; [lia|].
      destruct (table_b2a (y mod 16 * 4 + z / 64)) as [_ ->]; [lia|].
      destruct (table_b2a (z mod 64)) as [_ ->]; [lia|].
      rewrite Hv. now destruct (b64encode rest).
Qed.

(** Decoding the base64 encoding of a byte string gives it back. *)
Lemma b64decode_b64encode b :
  Forall (fun x => x < 256) b -> b64decode (b64encode b) = Val b.
Proof.
  intros Hb. unfold b64decode, bytes_from_decode_data.
  rewrite (valid_base64_ascii _ _ (le_n _)
             (b64encode_valid _ b (le_n _) Hb)).
  cbn [result_bind]. unfold a2b_base64.
  destruct (b64encode_loop _ b 0 0 [] (le_n _) Hb) as [-> | ->]; reflexivity.
Qed.

(** The decoder writes bytes. *)
Lemma u8_byte x : u8 x < 256.
Proof.
  unfold u8. change 255 with (N.ones 8). rewrite N.land_ones.
  apply N.mod_lt. discriminate.
Qed.

Lemma a2b_loop_bytes data : forall q l p bin,
  Forall (fun x => x < 256) bin ->
  match a2b_loop data q l p bin with
  | Done out | EndOfInput _ out => Forall (fun x => x < 256) out
  end.
Proof.
  assert (Hsnoc : forall bin x, Forall (fun x => x < 256) bin ->
                           Forall (fun x => x < 256) (bin ++ [u8 x])).
  { intros bin x Hbin. apply Forall_app. split; [assumption|].
    constructor; [apply u8_byte|constructor]. }
  induction data as [|c rest IH]; intros q l p bin Hbin; [exact Hbin|].
  cbn [a2b_loop].
  destruct (c =? BASE64_PAD).
  - destruct (2 <=? q); [|now apply IH].
    destruct (4 <=? q + (p + 1)); [exact Hbin|now apply IH].
  - cbv zeta. destruct (64 <=? table_a2b_base64 c); [now apply IH|].
    destruct q as [|[[]|[]|]]; apply IH; auto.
Qed.

Lemma b64decode_bytes s b :
  b64decode s = Val b -> Forall (fun x => x < 256) b.
Proof.
  unfold b64decode, bytes_from_decode_data.
  destruct (forallb (fun c => c <? 128) s); [|discriminate].
  cbn [result_bind]. unfold a2b_base64.
  pose proof (a2b_loop_bytes s 0 0 0 [] (Forall_nil _)) as H.
  destruct (a2b_loop s 0 0 0 []) as [out|q out].
  - now intros [= <-].
  - destruct (q =? 0); [now intros [= <-]|]. destruct (q =? 1); discriminate.
Qed.

(** ** The credential *)

(** Both decode steps raise instances of [Exception]. *)
Lemma credential_text_raises request e :
  credential_text request = Raise e -> isinstance_Exception e = true.
Proof.
  unfold credential_text, result_bind, isinstance_Exception.
  destruct (b64decode (kubeconfig_base64 request)) as [raw|e0] eqn:Hraw.
  - intros Hd.
    rewrite (utf8_decode_raises (List.length raw) raw 0 e (le_n _) Hd).
    reflexivity.
  - intros [= <-]. now destruct (b64decode_raises _ _ Hraw) as [-> | ->].
Qed.

Lemma decode_Raise_invalid b e : decode b = Raise e -> ~ valid_utf8 b.
Proof.
  intros Hd (s & Hs & He).
  assert (H : decode b = Val s) by now apply decode_Val_iff.
  congruence.
Qed.

Lemma encode_bytes s :
  Forall scalar_value s -> Forall (fun x => x < 256) (encode s).
Proof.
  induction 1 as [|c s Hc _ IH]; [constructor|].
  change (encode (c :: s)) with (encode_char c ++ encode s).
  apply Forall_app. split; [|exact IH].
  unfold scalar_value in Hc. unfold encode_char.
  pick_branch; repeat constructor; lia.
Qed.

(** The base64 of the UTF-8 of a text is a credential the handler decodes
    back to that text. *)
Lemma credential_text_b64encode s :
  Forall scalar_value s ->
  credential_text (mk_request (b64encode (encode s))) = Val s.
Proof.
  intros Hs. unfold credential_text. cbn [kubeconfig_base64].
  rewrite (b64decode_b64encode _ (encode_bytes s Hs)). cbn [result_bind].
  now apply decode_Val_iff.
Qed.

Lemma valid_base64_significant n : forall s,
  (List.length s <= n)%nat ->
  valid_base64 s = true -> forallb significant s = true.
Proof.
  unfold significant.
  induction n as [|n IH]; intros s Hlen Hv.
  - destruct s; [reflexivity|cbn in Hlen; lia].
  - destruct s as [|a [|b [|c [|d rest]]]]; try discriminate Hv; [reflexivity|].
    cbn [valid_base64] in Hv.
    apply andb_true_iff in Hv as [Hab Hv].
    apply andb_true_iff in Hab as [Ha Hb].
    cbn [forallb]. rewrite Ha, Hb. cbn [orb andb].
    destruct rest as [|x rest].
    + apply orb_true_iff in Hv as [Hv|Hv];
        apply andb_true_iff in Hv as [Hc Hd].
      * rewrite Hc, Hd. reflexivity.
      * rewrite Hc, Hd, !orb_true_r. reflexivity.
    + apply andb_true_iff in Hv as [Hcd Hv].
      apply andb_true_iff in Hcd as [Hc Hd].
      rewrite Hc, Hd. cbn [orb andb].
      apply IH; [cbn in Hlen |- *; lia|exact Hv].
Qed.

(** A text with a character that is neither in the alphabet nor the pad is
    not well-formed base64. *)
Lemma stray_character_invalid s c :
  In c s -> significant c = false -> valid_base64 s = false.
Proof.
  intros Hin Hc. destruct (valid_base64 s) eqn:Hv; [|reflexivity].
  apply (valid_base64_significant _ _ (le_n _)) in Hv.
  rewrite forallb_forall in Hv. rewrite (Hv c Hin) in Hc. discriminate.
Qed.

(** ** The handler on a failing step, and on any state *)

Section Outcomes.

Context {client : Type} (lib : cluster_library client).
Implicit Types (request : GetNodesRequest) (s : state client) (e : pyexc).

Lemma raises_in_decode_Exception request step e calls :
  raises_at lib request step e calls ->
  step = in_decode -> isinstance_Exception e = true.
Proof.
  intros [e' Ht | | ]; try discriminate. intros _.
  now apply credential_text_raises in Ht.
Qed.

Lemma GetNodes_raises_at request step e calls s :
  raises_at lib request step e calls ->
  GetNodes lib request s =
    if isinstance_Exception e
    then (Val empty_response,
          mk_state (log s ++ logged_until step request ++ [error_logged e])
                   (context s ++ internal_error e)
                   (library_calls s ++ calls))
    else (Raise e,
          mk_state (log s ++ logged_until step request)
                   (context s)
                   (library_calls s ++ calls)).
Proof.
  intros Hr. pose proof (GetNodes_try_raises lib request step e calls s Hr) as Hb.
  destruct (isinstance_Exception e) eqn:He.
  - rewrite (GetNodes_catches lib request e s _ Hb He). cbn [log context library_calls].
    now rewrite <- app_assoc.
  - apply (GetNodes_propagates lib request e s _ Hb He).
Qed.

(** Serving a request ends in exactly one of two ways: the three steps
    succeed, or one of them raises. *)
Lemma GetNodes_cases request :
  (exists text c names,
      credential_text request = Val text
      /\ KrknKubernetes lib empty_str text = Val c
      /\ list_nodes lib c = Val names)
  \/ (exists step e calls, raises_at lib request step e calls).
Proof.
  destruct (credential_text request) as [text|e] eqn:Ht.
  - destruct (KrknKubernetes lib empty_str text) as [c|e] eqn:Hc.
    + destruct (list_nodes lib c) as [names|e] eqn:Hn.
      * left. now exists text, c, names.
      * right. exists in_listing, e. eexists. eapply raises_in_listing; eassumption.
    + right. exists in_construction, e. eexists.
      eapply raises_in_construction; eassumption.
  - right. exists in_decode, e, []. now constructor.
Qed.

(** What the handler answers does not depend on the state it starts in:
    nothing logged, set or called earlier is read. *)
Lemma GetNodes_state_independent request s s' :
  fst (GetNodes lib request s) = fst (GetNodes lib request s').
Proof.
  destruct (GetNodes_cases request)
    as [(text & c & names & Ht & Hc & Hn) | (step & e & calls & Hr)].
  - now rewrite !(GetNodes_succeeds lib request text c names _ Ht Hc Hn).
  - rewrite !(GetNodes_raises_at request step e calls _ Hr).
    now destruct (isinstance_Exception e).
Qed.

(** Once the credential decodes, the constructor is the next library call. *)
Lemma GetNodes_calls_constructor request text s :
  credential_text request = Val text ->
  exists rest,
    library_calls (snd (GetNodes lib request s))
    = library_calls s ++ new_KrknKubernetes empty_str text :: rest.
Proof.
  intros Ht.
  destruct (GetNodes_cases request)
    as [(text' & c & names & Ht' & Hc & Hn) | (step & e & calls & Hr)].
  - rewrite (GetNodes_succeeds lib request text' c names _ Ht' Hc Hn).
    rewrite Ht in Ht'. injection Ht' as <-. cbn. eauto.
  - rewrite (GetNodes_raises_at request step e calls _ Hr).
    destruct Hr as [e Ht' | text' e Ht' Hc | text' c e Ht' Hc Hn];
      rewrite Ht in Ht'; try discriminate Ht'; injection Ht' as <-;
      destruct (isinstance_Exception e); cbn; eauto.
Qed.

End Outcomes.
(** ** The claims *)

Section Claims.

Context {client : Type} (lib : cluster_library client).
Implicit Types (request : GetNodesRequest) (s : state client) (e : pyexc).

(** C1. For a request whose credential decodes and is accepted by the
    client constructor, when [list_nodes] returns [names] (in particular
    ["a"; "b"; "c"]), [GetNodes] returns a response whose [nodes] field is
    [names], in the same order, and makes no call on the context: no status
    is set. *)
Theorem GetNodes_returns_listed_nodes request text c names s :
  credential_text request = Val text ->
  KrknKubernetes lib empty_str text = Val c ->
  list_nodes lib c = Val names ->
  exists resp s',
    GetNodes lib request s = (Val resp, s')
    /\ nodes resp = names
    /\ context s' = context s.
Proof.
  intros Ht Hc Hn.
  rewrite (GetNodes_succeeds lib request text c names s Ht Hc Hn).
  do 2 eexists. repeat split.
Qed.

(** C2, as amended.  Whatever step raises (decode, client construction or
    listing), if the exception is an instance of [Exception] the handler
    answers the same way: it sets the one status [INTERNAL], sets details
    that end with [str(e)], returns the empty response, and calls the
    library no further: each library call was made at most once. *)
Theorem GetNodes_failure_is_internal request step e calls s :
  raises_at lib request step e calls ->
  isinstance_Exception e = true ->
  exists s',
    GetNodes lib request s = (Val empty_response, s')
    /\ nodes empty_response = []
    /\ context s' = context s ++ internal_error e
    /\ code (context s') = Some INTERNAL
    /\ (exists d, details (context s') = Some d /\ contains d (exc_str e))
    /\ library_calls s' = library_calls s ++ calls
    /\ (calls = []
        \/ (exists text, calls = [new_KrknKubernetes empty_str text])
        \/ (exists text c,
               calls = [new_KrknKubernetes empty_str text; do_list_nodes c])).
Proof.
  intros Hr He. rewrite (GetNodes_raises_at lib request step e calls s Hr), He.
  eexists. split; [reflexivity|]. cbn [context library_calls].
  repeat split.
  - apply code_internal.
  - eexists. split; [apply details_failed|apply contains_suffix].
  - destruct Hr; eauto.
Qed.

(** C3, as amended.  When [base64.b64decode] rejects the field (then it is
    not well-formed base64), the handler answers [INTERNAL] with the empty
    response and calls the library not at all: no client is constructed, no
    request reaches the cluster. *)
Theorem GetNodes_rejected_base64 request e s :
  b64decode (kubeconfig_base64 request) = Raise e ->
  valid_base64 (kubeconfig_base64 request) = false
  /\ exists s',
       GetNodes lib request s = (Val empty_response, s')
       /\ nodes empty_response = []
       /\ code (context s') = Some INTERNAL
       /\ library_calls s' = library_calls s.
Proof.
  intros Hraw. split.
  - destruct (valid_base64 (kubeconfig_base64 request)) eqn:Hv; [|reflexivity].
    destruct (valid_base64_decodes _ Hv) as [b Hb]. congruence.
  - assert (Ht : credential_text request = Raise e)
      by (unfold credential_text; now rewrite Hraw).
    rewrite (GetNodes_raises_at lib request in_decode e [] s
               (raises_in_decode lib request e Ht)).
    rewrite (credential_text_raises request e Ht).
    eexists. split; [reflexivity|]. cbn [context library_calls].
    repeat split; [apply code_internal|apply app_nil_r].
Qed.

(** C4.  When the field decodes from base64 to bytes that are not valid
    UTF-8, the handler answers [INTERNAL] with the empty response and calls
    the library not at all. *)
Theorem GetNodes_invalid_utf8 request raw s :
  b64decode (kubeconfig_base64 request) = Val raw ->
  ~ valid_utf8 raw ->
  exists s',
    GetNodes lib request s = (Val empty_response, s')
    /\ nodes empty_response = []
    /\ code (context s') = Some INTERNAL
    /\ library_calls s' = library_calls s.
Proof.
  intros Hraw Hinv. destruct (decode_invalid raw Hinv) as (e & Hd & _).
  assert (Ht : credential_text request = Raise e)
    by (unfold credential_text; now rewrite Hraw).
  rewrite (GetNodes_raises_at lib request in_decode e [] s
             (raises_in_decode lib request e Ht)).
  rewrite (credential_text_raises request e Ht).
  eexists. split; [reflexivity|]. cbn [context library_calls].
  repeat split; [apply code_internal|apply app_nil_r].
Qed.

(** C5.  With a valid credential and a cluster without nodes ([list_nodes]
    returns the empty list), the response has [nodes = []] and the context
    is left as it was: on a fresh context no code is set, the call succeeds. *)
Theorem GetNodes_empty_cluster request text c s :
  credential_text request = Val text ->
  KrknKubernetes lib empty_str text = Val c ->
  list_nodes lib c = Val [] ->
  exists resp s',
    GetNodes lib request s = (Val resp, s')
    /\ nodes resp = []
    /\ context s' = context s
    /\ (context s = [] -> code (context s') = None).
Proof.
  intros Ht Hc Hn.
  rewrite (GetNodes_succeeds lib request text c [] s Ht Hc Hn).
  do 2 eexists. split; [reflexivity|]. cbn [nodes context].
  repeat split. now intros ->.
Qed.

(** C6.  A valid request served twice against the same library and cluster,
    the second call starting from what the first left (its log and calls)
    and a context of its own, gives two successful responses with the same
    node list; and in general the answer to a request is the same from any
    two states: the handler keeps nothing between calls. *)
Theorem GetNodes_twice request text c names s ctx2 :
  credential_text request = Val text ->
  KrknKubernetes lib empty_str text = Val c ->
  list_nodes lib c = Val names ->
  (exists s1 s2,
      GetNodes lib request s = (Val (mk_response names), s1)
      /\ context s1 = context s
      /\ GetNodes lib request (mk_state (log s1) ctx2 (library_calls s1))
         = (Val (mk_response names), s2)
      /\ context s2 = ctx2)
  /\ (forall request' s' s'',
         fst (GetNodes lib request' s') = fst (GetNodes lib request' s'')).
Proof.
  intros Ht Hc Hn. split.
  - do 2 eexists.
    rewrite !(GetNodes_succeeds lib request text c names _ Ht Hc Hn).
    repeat split.
  - intros. apply GetNodes_state_independent.
Qed.

(** C7, as amended.  When a step of the handler raises, during decode
    whatever is raised, during client construction or listing an instance of
    [Exception], [GetNodes] returns normally: the empty response, with
    [INTERNAL] set. *)
Theorem GetNodes_returns_normally request step e calls s :
  raises_at lib request step e calls ->
  step = in_decode \/ isinstance_Exception e = true ->
  exists s',
    GetNodes lib request s = (Val empty_response, s')
    /\ code (context s') = Some INTERNAL.
Proof.
  intros Hr Hstep.
  assert (He : isinstance_Exception e = true).
  { destruct Hstep as [Hd|He]; [|exact He].
    exact (raises_in_decode_Exception lib request step e calls Hr Hd). }
  rewrite (GetNodes_raises_at lib request step e calls s Hr), He.
  eexists. split; [reflexivity|]. apply code_internal.
Qed.

(** C9.  Whenever the credential decodes and the client is constructed,
    whatever [list_nodes] then does, the log holds a record at level [INFO],
    a level the configuration emits, whose message contains the decoded
    credential text. *)
Theorem GetNodes_logs_credential request text c s :
  credential_text request = Val text ->
  KrknKubernetes lib empty_str text = Val c ->
  isEnabledFor INFO = true
  /\ In (kubeconfig_logged text) (log (snd (GetNodes lib request s)))
  /\ levelname (kubeconfig_logged text) = INFO
  /\ contains (message (kubeconfig_logged text)) text.
Proof.
  intros Ht Hc. split; [reflexivity|]. split; [|split].
  - destruct (list_nodes lib c) as [names|e] eqn:Hn.
    + rewrite (GetNodes_succeeds lib request text c names s Ht Hc Hn).
      cbn [snd log]. apply in_or_app. right. cbn. auto.
    + rewrite (GetNodes_raises_at lib request in_listing e _ s
                 (raises_in_listing lib request text c e Ht Hc Hn)).
      unfold logged_until. rewrite Ht.
      destruct (isinstance_Exception e); cbn [snd log];
        apply in_or_app; right; cbn; auto.
  - reflexivity.
  - apply contains_suffix.
Qed.

(** C10.  [b64decode] drops the characters outside the alphabet: a field
    with such a character is not well-formed base64, yet decodes like the
    field without it; and whenever the decoded bytes are UTF-8 the handler
    goes on to construct the client.  So it is for the sample field with a
    ["*"] in it, and for the empty field, which decodes to the empty text. *)
Theorem lenient_base64_reaches_constructor :
  (forall field c,
      forallb (fun c => c <? 128) field = true ->
      In c field -> significant c = false ->
      valid_base64 field = false
      /\ b64decode field = b64decode (filter significant field))
  /\ (forall request text s,
         credential_text request = Val text ->
         exists rest,
           library_calls (snd (GetNodes lib request s))
           = library_calls s ++ new_KrknKubernetes empty_str text :: rest)
  /\ (valid_base64 (kubeconfig_base64 Sample.starred_request) = false
      /\ In 42 (kubeconfig_base64 Sample.starred_request)
      /\ alphabet 42 = false
      /\ credential_text Sample.starred_request = Val Sample.kubeconfig)
  /\ credential_text Sample.empty_request = Val [].
Proof.
  split; [|split; [|split]].
  - intros field c Hascii Hin Hc. split.
    + exact (stray_character_invalid field c Hin Hc).
    + unfold b64decode, bytes_from_decode_data. rewrite Hascii.
      assert (Hf : forallb (fun c => c <? 128) (filter significant field) = true).
      { rewrite forallb_forall in Hascii |- *. intros x Hx.
        apply filter_In in Hx as [Hx _]. now apply Hascii. }
      rewrite Hf. cbn [result_bind]. apply a2b_base64_filter.
  - intros request text s Ht. now apply GetNodes_calls_constructor.
  - vm_compute. repeat split; auto 20.
  - reflexivity.
Qed.

End Claims.
(** ** The claims on the sample clusters *)

Lemma good_request_decodes :
  credential_text Sample.good_request = Val Sample.kubeconfig.
Proof. vm_compute. reflexivity. Qed.

Lemma GetNodes_returns_listed_nodes_witness :
  credential_text Sample.good_request = Val Sample.kubeconfig
  /\ KrknKubernetes Sample.three_nodes empty_str Sample.kubeconfig
     = Val Sample.kubeconfig
  /\ list_nodes Sample.three_nodes Sample.kubeconfig
     = Val [py "a"; py "b"; py "c"]
  /\ exists resp s',
       GetNodes Sample.three_nodes Sample.good_request Sample.fresh
       = (Val resp, s')
       /\ nodes resp = [py "a"; py "b"; py "c"]
       /\ context s' = context Sample.fresh.
Proof.
  split; [vm_compute; reflexivity|].
  split; [reflexivity|]. split; [reflexivity|].
  apply (GetNodes_returns_listed_nodes Sample.three_nodes Sample.good_request
           Sample.kubeconfig Sample.kubeconfig
           [py "a"; py "b"; py "c"] Sample.fresh);
    vm_compute; reflexivity.
Defined.

Lemma unreachable_raises_in_listing :
  raises_at Sample.unreachable Sample.good_request in_listing
            Sample.service_unavailable
            [new_KrknKubernetes empty_str Sample.kubeconfig;
             do_list_nodes Sample.kubeconfig].
Proof.
  apply (raises_in_listing Sample.unreachable Sample.good_request
           Sample.kubeconfig Sample.kubeconfig);
    [exact good_request_decodes|reflexivity|reflexivity].
Defined.

Lemma GetNodes_failure_is_internal_witness :
  raises_at Sample.unreachable Sample.good_request in_listing
            Sample.service_unavailable
            [new_KrknKubernetes empty_str Sample.kubeconfig;
             do_list_nodes Sample.kubeconfig]
  /\ isinstance_Exception Sample.service_unavailable = true
  /\ exists s',
       GetNodes Sample.unreachable Sample.good_request Sample.fresh
       = (Val empty_response, s')
       /\ code (context s') = Some INTERNAL
       /\ details (context s')
          = Some (py "Failed to get nodes: (503) Service Unavailable")
       /\ library_calls s'
          = [new_KrknKubernetes empty_str Sample.kubeconfig;
             do_list_nodes Sample.kubeconfig].
Proof.
  split; [exact unreachable_raises_in_listing|]. split; [reflexivity|].
  destruct (GetNodes_failure_is_internal Sample.unreachable Sample.good_request
              in_listing Sample.service_unavailable
              [new_KrknKubernetes empty_str Sample.kubeconfig;
               do_list_nodes Sample.kubeconfig]
              Sample.fresh unreachable_raises_in_listing eq_refl)
    as (s' & Hrun & _ & Hctx & Hcode & _ & Hcalls & _).
  exists s'. split; [exact Hrun|]. split; [exact Hcode|].
  split; [rewrite Hctx; vm_compute; reflexivity|exact Hcalls].
Defined.

(** A constructor that leaves through [SystemExit] is not answered with
    [INTERNAL]: the exception leaves the handler, no status set. *)
Lemma GetNodes_SystemExit_in_construction_sets_no_status :
  raises_at Sample.exiting_constructor Sample.good_request in_construction
            Sample.exit_1 [new_KrknKubernetes empty_str Sample.kubeconfig]
  /\ exists s',
       GetNodes Sample.exiting_constructor Sample.good_request Sample.fresh
       = (Raise Sample.exit_1, s')
       /\ code (context s') = None
       /\ details (context s') = None.
Proof.
  split.
  - apply (raises_in_construction Sample.exiting_constructor
             Sample.good_request Sample.kubeconfig);
      [exact good_request_decodes|reflexivity].
  - eexists. split; [vm_compute; reflexivity|]. split; reflexivity.
Qed.

Lemma GetNodes_rejected_base64_witness :
  b64decode (kubeconfig_base64 Sample.unpadded_request) = Raise incorrect_padding
  /\ valid_base64 (kubeconfig_base64 Sample.unpadded_request) = false
  /\ exists s',
       GetNodes Sample.three_nodes Sample.unpadded_request Sample.fresh
       = (Val empty_response, s')
       /\ nodes empty_response = []
       /\ code (context s') = Some INTERNAL
       /\ library_calls s' = library_calls Sample.fresh.
Proof.
  split; [vm_compute; reflexivity|].
  apply (GetNodes_rejected_base64 Sample.three_nodes Sample.unpadded_request
           incorrect_padding Sample.fresh).
  vm_compute. reflexivity.
Defined.

(** A field that is not well-formed base64, a ["*"] in the middle, is
    served like the field without it: the client is constructed, the cluster
    queried, the nodes returned and no status set. *)
Lemma GetNodes_stray_character_served :
  valid_base64 (kubeconfig_base64 Sample.starred_request) = false
  /\ exists resp s',
       GetNodes Sample.three_nodes Sample.starred_request Sample.fresh
       = (Val resp, s')
       /\ nodes resp = [py "a"; py "b"; py "c"]
       /\ code (context s') = None
       /\ library_calls s'
          = [new_KrknKubernetes empty_str Sample.kubeconfig;
             do_list_nodes Sample.kubeconfig].
Proof.
  split; [vm_compute; reflexivity|].
  do 2 eexists. split; [vm_compute; reflexivity|].
  repeat split.
Qed.

Lemma GetNodes_invalid_utf8_witness :
  b64decode (kubeconfig_base64 Sample.not_utf8_request) = Val [255; 254]
  /\ ~ valid_utf8 [255; 254]
  /\ exists s',
       GetNodes Sample.three_nodes Sample.not_utf8_request Sample.fresh
       = (Val empty_response, s')
       /\ nodes empty_response = []
       /\ code (context s') = Some INTERNAL
       /\ library_calls s' = library_calls Sample.fresh.
Proof.
  assert (Hinv : ~ valid_utf8 [255; 254]).
  { apply (decode_Raise_invalid [255; 254]
             (decode_error 255 0 1 invalid_start_byte)).
    vm_compute. reflexivity. }
  split; [vm_compute; reflexivity|]. split; [exact Hinv|].
  apply (GetNodes_invalid_utf8 Sample.three_nodes Sample.not_utf8_request
           [255; 254] Sample.fresh);
    [vm_compute; reflexivity|exact Hinv].
Defined.

Lemma GetNodes_empty_cluster_witness :
  credential_text Sample.good_request = Val Sample.kubeconfig
  /\ KrknKubernetes Sample.no_nodes empty_str Sample.kubeconfig
     = Val Sample.kubeconfig
  /\ list_nodes Sample.no_nodes Sample.kubeconfig = Val []
  /\ exists resp s',
       GetNodes Sample.no_nodes Sample.good_request Sample.fresh = (Val resp, s')
       /\ nodes resp = []
       /\ context s' = context Sample.fresh
       /\ (context Sample.fresh = [] -> code (context s') = None).
Proof.
  split; [vm_compute; reflexivity|].
  split; [reflexivity|]. split; [reflexivity|].
  apply (GetNodes_empty_cluster Sample.no_nodes Sample.good_request
           Sample.kubeconfig Sample.kubeconfig Sample.fresh);
    vm_compute; reflexivity.
Defined.

Lemma GetNodes_twice_witness :
  credential_text Sample.good_request = Val Sample.kubeconfig
  /\ KrknKubernetes Sample.three_nodes empty_str Sample.kubeconfig
     = Val Sample.kubeconfig
  /\ list_nodes Sample.three_nodes Sample.kubeconfig
     = Val [py "a"; py "b"; py "c"]
  /\ exists s1 s2,
       GetNodes Sample.three_nodes Sample.good_request Sample.fresh
       = (Val (mk_response [py "a"; py "b"; py "c"]), s1)
       /\ context s1 = context Sample.fresh
       /\ GetNodes Sample.three_nodes Sample.good_request
            (mk_state (log s1) [] (library_calls s1))
          = (Val (mk_response [py "a"; py "b"; py "c"]), s2)
       /\ context s2 = [].
Proof.
  split; [vm_compute; reflexivity|].
  split; [reflexivity|]. split; [reflexivity|].
  apply (GetNodes_twice Sample.three_nodes Sample.good_request
           Sample.kubeconfig Sample.kubeconfig
           [py "a"; py "b"; py "c"] Sample.fresh []);
    vm_compute; reflexivity.
Defined.

Lemma rejecting_raises_in_construction :
  raises_at Sample.rejecting Sample.good_request in_construction
            Sample.kubeconfig_rejected
            [new_KrknKubernetes empty_str Sample.kubeconfig].
Proof.
  apply (raises_in_construction Sample.rejecting Sample.good_request
           Sample.kubeconfig);
    [exact good_request_decodes|reflexivity].
Defined.

Lemma GetNodes_returns_normally_witness :
  raises_at Sample.rejecting Sample.good_request in_construction
            Sample.kubeconfig_rejected
            [new_KrknKubernetes empty_str Sample.kubeconfig]
  /\ isinstance_Exception Sample.kubeconfig_rejected = true
  /\ exists s',
       GetNodes Sample.rejecting Sample.good_request Sample.fresh
       = (Val empty_response, s')
       /\ code (context s') = Some INTERNAL.
Proof.
  split; [exact rejecting_raises_in_construction|]. split; [reflexivity|].
  apply (GetNodes_returns_normally Sample.rejecting Sample.good_request
           in_construction Sample.kubeconfig_rejected
           [new_KrknKubernetes empty_str Sample.kubeconfig] Sample.fresh
           rejecting_raises_in_construction).
  right. reflexivity.
Defined.

(** [list_nodes] leaving through [SystemExit]: the handler does not return,
    the exception goes on to its caller. *)
Lemma GetNodes_SystemExit_in_listing_propagates :
  raises_at Sample.exiting_listing Sample.good_request in_listing
            Sample.exit_1
            [new_KrknKubernetes empty_str Sample.kubeconfig;
             do_list_nodes Sample.kubeconfig]
  /\ (exists s',
         GetNodes Sample.exiting_listing Sample.good_request Sample.fresh
         = (Raise Sample.exit_1, s'))
  /\ (forall resp s',
         GetNodes Sample.exiting_listing Sample.good_request Sample.fresh
         <> (Val resp, s')).
Proof.
  split; [|split].
  - apply (raises_in_listing Sample.exiting_listing Sample.good_request
             Sample.kubeconfig Sample.kubeconfig);
      [exact good_request_decodes|reflexivity|reflexivity].
  - eexists. vm_compute. reflexivity.
  - intros resp s'. vm_compute. discriminate.
Qed.

Lemma GetNodes_logs_credential_witness :
  credential_text Sample.good_request = Val Sample.kubeconfig
  /\ KrknKubernetes Sample.unreachable empty_str Sample.kubeconfig
     = Val Sample.kubeconfig
  /\ In (mk_record INFO (py "kubeconfig apiVersion: v1") None)
        (log (snd (GetNodes Sample.unreachable Sample.good_request Sample.fresh)))
  /\ contains (py "kubeconfig apiVersion: v1") Sample.kubeconfig.
Proof.
  split; [vm_compute; reflexivity|]. split; [reflexivity|].
  destruct (GetNodes_logs_credential Sample.unreachable Sample.good_request
              Sample.kubeconfig Sample.kubeconfig Sample.fresh)
    as (_ & Hin & _ & Hc); [vm_compute; reflexivity|reflexivity|].
  split; [exact Hin|exact Hc].
Defined.

(** ** [serve] on interrupt *)

(** On [KeyboardInterrupt] the one further call on the server is [stop]
    with a grace of zero, followed by the two log lines; nothing waits on
    what [stop] returns. *)
Lemma serve_interrupted port :
  exists calls,
    fst (serve port interrupted) = calls ++ [wait_for_termination; stop 0]
    /\ fst (serve port terminated) = calls ++ [wait_for_termination].
Proof.
  eexists [_; _; _; _]. split; reflexivity.
Qed.

(** * Further properties of the handler *)

Section HandlerCoverage.

Context {client : Type} (lib : cluster_library client).
Implicit Types (request : GetNodesRequest) (s : state client) (e : pyexc).

(** The three ways a call ends, with the state it leaves. *)
Lemma GetNodes_outcome request s :
  (exists text c names,
      credential_text request = Val text
      /\ KrknKubernetes lib empty_str text = Val c
      /\ list_nodes lib c = Val names
      /\ GetNodes lib request s =
           (Val (mk_response names),
            mk_state (log s ++ [received; initialized; kubeconfig_logged text;
                                retrieved (List.length names)])
                     (context s)
                     (library_calls s ++ [new_KrknKubernetes empty_str text;
                                          do_list_nodes c])))
  \/ (exists step e calls,
         raises_at lib request step e calls
         /\ isinstance_Exception e = true
         /\ GetNodes lib request s =
              (Val empty_response,
               mk_state (log s ++ logged_until step request ++ [error_logged e])
                        (context s ++ internal_error e)
                        (library_calls s ++ calls)))
  \/ (exists step e calls,
         raises_at lib request step e calls
         /\ isinstance_Exception e = false
         /\ GetNodes lib request s =
              (Raise e,
               mk_state (log s ++ logged_until step request)
                        (context s)
                        (library_calls s ++ calls))).
Proof.
  destruct (GetNodes_cases lib request)
    as [(text & c & names & Ht & Hc & Hn) | (step & e & calls & Hr)].
  - left. exists text, c, names. repeat split; try assumption.
    apply GetNodes_succeeds; assumption.
  - pose proof (GetNodes_raises_at lib request step e calls s Hr) as Hrun.
    destruct (isinstance_Exception e) eqn:He.
    + right. left. exists step, e, calls. auto.
    + right. right. exists step, e, calls. auto.
Qed.

(** X1.  The handler only appends: whatever was logged, set on the context
    or called on the library before the call is still there after it, in
    front; and what is returned and appended is the same from every state. *)
Theorem GetNodes_appends_only request :
  exists r dlog dctx dcalls,
    forall s,
      GetNodes lib request s =
        (r, mk_state (log s ++ dlog) (context s ++ dctx)
                     (library_calls s ++ dcalls)).
Proof.
  destruct (GetNodes_cases lib request)
    as [(text & c & names & Ht & Hc & Hn) | (step & e & calls & Hr)].
  - exists (Val (mk_response names)),
      [received; initialized; kubeconfig_logged text;
       retrieved (List.length names)],
      [], [new_KrknKubernetes empty_str text; do_list_nodes c].
    intros s. rewrite app_nil_r. now apply GetNodes_succeeds.
  - destruct (isinstance_Exception e) eqn:He.
    + exists (Val empty_response),
        (logged_until step request ++ [error_logged e]),
        (internal_error e), calls.
      intros s. rewrite (GetNodes_raises_at lib request step e calls s Hr).
      now rewrite He.
    + exists (Raise e), (logged_until step request), [], calls.
      intros s. rewrite (GetNodes_raises_at lib request step e calls s Hr).
      now rewrite He, app_nil_r.
Qed.

(** X2.  The calls on the client library follow one protocol: none when the
    credential does not decode; otherwise the constructor once, with an
    empty [kubeconfig_path] and the decoded text; and [list_nodes] once, on
    the client the constructor returned, only when it returned one. *)
Theorem GetNodes_library_protocol request s :
  let s' := snd (GetNodes lib request s) in
  (library_calls s' = library_calls s
   /\ exists e, credential_text request = Raise e)
  \/ (exists text e,
         library_calls s' = library_calls s ++ [new_KrknKubernetes empty_str text]
         /\ credential_text request = Val text
         /\ KrknKubernetes lib empty_str text = Raise e)
  \/ (exists text c,
         library_calls s'
         = library_calls s ++ [new_KrknKubernetes empty_str text; do_list_nodes c]
         /\ credential_text request = Val text
         /\ KrknKubernetes lib empty_str text = Val c).
Proof.
  cbv zeta.
  destruct (GetNodes_cases lib request)
    as [(text & c & names & Ht & Hc & Hn) | (step & e & calls & Hr)].
  - right. right. exists text, c.
    rewrite (GetNodes_succeeds lib request text c names s Ht Hc Hn). auto.
  - rewrite (GetNodes_raises_at lib request step e calls s Hr).
    assert (Hsnd : forall (A : Type) (b : bool) (x y : A * state client),
               library_calls (snd x) = library_calls (snd y) ->
               library_calls (snd (if b then x else y)) = library_calls (snd x))
      by (intros A [] x y H; congruence).
    rewrite Hsnd by reflexivity. cbn [snd library_calls].
    destruct Hr as [e Ht | text e Ht Hc | text c e Ht Hc Hn].
    + left. rewrite app_nil_r. eauto.
    + right. left. exists text, e. auto.
    + right. right. exists text, c. auto.
Qed.

(** X3.  A returned response and the status agree: either the context is
    untouched and the nodes are those [list_nodes] returned for the decoded
    credential, or the node list is empty and the context got [INTERNAL]
    with its details, for an [Exception] one of the steps raised.  A
    response never carries nodes together with an error status. *)
Theorem GetNodes_response_matches_status request s resp s' :
  GetNodes lib request s = (Val resp, s') ->
  (context s' = context s
   /\ exists text c,
        credential_text request = Val text
        /\ KrknKubernetes lib empty_str text = Val c
        /\ list_nodes lib c = Val (nodes resp))
  \/ (nodes resp = []
      /\ code (context s') = Some INTERNAL
      /\ exists step e calls,
           raises_at lib request step e calls
           /\ isinstance_Exception e = true
           /\ context s' = context s ++ internal_error e).
Proof.
  intros Hrun.
  destruct (GetNodes_outcome request s)
    as [(text & c & names & Ht & Hc & Hn & H)
       | [(step & e & calls & Hr & He & H) | (step & e & calls & Hr & He & H)]];
    rewrite H in Hrun.
  - injection Hrun as <- <-. left. split; [reflexivity|].
    exists text, c. auto.
  - injection Hrun as <- <-. right. cbn [context nodes empty_response].
    split; [reflexivity|]. split; [apply code_internal|].
    exists step, e, calls. auto.
  - discriminate Hrun.
Qed.

(** X4.  The handler raises only what the client library raised outside the
    [Exception] hierarchy: never from the decode step, and then with no
    status set and no error record logged. *)
Theorem GetNodes_raises_only_library_signals request s e s' :
  GetNodes lib request s = (Raise e, s') ->
  isinstance_Exception e = false
  /\ (exists step calls,
         raises_at lib request step e calls
         /\ step <> in_decode
         /\ log s' = log s ++ logged_until step request
         /\ library_calls s' = library_calls s ++ calls)
  /\ context s' = context s.
Proof.
  intros Hrun.
  destruct (GetNodes_outcome request s)
    as [(text & c & names & Ht & Hc & Hn & H)
       | [(step & e0 & calls & Hr & He & H) | (step & e0 & calls & Hr & He & H)]];
    rewrite H in Hrun; try discriminate Hrun.
  injection Hrun as <- <-. split; [exact He|]. split; [|reflexivity].
  exists step, calls. repeat split; try assumption.
  intros ->. rewrite (raises_in_decode_Exception lib request in_decode e0 calls Hr eq_refl) in He.
  discriminate He.
Qed.


Lemma logged_until_INFO step request :
  Forall (fun r => levelname r = INFO) (logged_until step request).
Proof.
  unfold logged_until.
  destruct step, (credential_text request); repeat constructor.
Qed.

(** X7.  What a call adds to the log is informational records, never a
    debug one, followed by one [ERROR] record exactly when the call sets the
    status; that record and the details name the same exception. *)
Theorem GetNodes_logs_error_iff_reported request s :
  let s' := snd (GetNodes lib request s) in
  exists before,
    Forall (fun r => levelname r = INFO) before
    /\ ((log s' = log s ++ before /\ context s' = context s)
        \/ (exists e,
               log s' = log s ++ before ++ [error_logged e]
               /\ levelname (error_logged e) = ERROR
               /\ exc_info (error_logged e) = Some e
               /\ context s' = context s ++ internal_error e)).
Proof.
  cbv zeta.
  destruct (GetNodes_outcome request s)
    as [(text & c & names & Ht & Hc & Hn & H)
       | [(step & e & calls & Hr & He & H) | (step & e & calls & Hr & He & H)]];
    rewrite H; cbn [snd log context].
  - eexists. split; [|left; split; reflexivity]. repeat constructor.
  - exists (logged_until step request). split; [apply logged_until_INFO|].
    right. exists e. repeat split.
  - exists (logged_until step request). split; [apply logged_until_INFO|].
    left. split; reflexivity.
Qed.

Lemma kubeconfig_logged_inj text text' :
  kubeconfig_logged text = kubeconfig_logged text' -> text = text'.
Proof.
  unfold kubeconfig_logged. now intros [= H].
Qed.

Lemma kubeconfig_logged_not_other text r :
  r = received \/ r = initialized \/ (exists n, r = retrieved n)
  \/ (exists e, r = error_logged e) ->
  kubeconfig_logged text <> r.
Proof.
  intros [-> | [-> | [[n ->] | [e ->]]]] H;
    apply (f_equal (fun r => (levelname r, hd 0 (message r)))) in H;
    cbv in H; discriminate H.
Qed.

Lemma In_logged_until step request text :
  In (kubeconfig_logged text) (logged_until step request) ->
  step = in_listing /\ credential_text request = Val text.
Proof.
  unfold logged_until.
  destruct step, (credential_text request) as [text'|e'];
    cbn [In]; intros Hin;
    repeat match goal with
           | H : _ \/ _ |- _ => destruct H as [H|H]
           | H : False |- _ => destruct H
           end;
    try (apply kubeconfig_logged_inj in Hin; subst text'; now split);
    exfalso; symmetry in Hin; revert Hin;
    apply kubeconfig_logged_not_other; auto.
Qed.

Lemma raises_in_listing_constructed request e calls text :
  raises_at lib request in_listing e calls ->
  credential_text request = Val text ->
  exists c, KrknKubernetes lib empty_str text = Val c.
Proof.
  intros Hr Ht. inversion Hr as [ | | text' c e' Ht' Hc Hn]; subst.
  rewrite Ht in Ht'. injection Ht' as <-. eauto.
Qed.

(** X8.  The record with the decoded credential is written only once the
    client constructor has returned: if it is in the log after a call and
    was not before, the credential decoded to that text and the constructor
    accepted it. *)
Theorem credential_logged_only_after_construction request s text :
  ~ In (kubeconfig_logged text) (log s) ->
  In (kubeconfig_logged text) (log (snd (GetNodes lib request s))) ->
  credential_text request = Val text
  /\ exists c, KrknKubernetes lib empty_str text = Val c.
Proof.
  intros Hbefore Hafter.
  assert (Hno : forall l, In (kubeconfig_logged text) (log s ++ l) ->
                     In (kubeconfig_logged text) l).
  { intros l Hin. apply in_app_or in Hin as [Hin|Hin]; [contradiction|exact Hin]. }
  destruct (GetNodes_outcome request s)
    as [(text' & c & names & Ht & Hc & Hn & H)
       | [(step & e & calls & Hr & He & H) | (step & e & calls & Hr & He & H)]];
    rewrite H in Hafter; cbn [snd log] in Hafter; apply Hno in Hafter.
  - destruct Hafter as [Hin|[Hin|[Hin|[Hin|[]]]]].
    + exfalso. symmetry in Hin. revert Hin.
      apply kubeconfig_logged_not_other. auto.
    + exfalso. symmetry in Hin. revert Hin.
      apply kubeconfig_logged_not_other. auto.
    + apply kubeconfig_logged_inj in Hin. subst text'. eauto.
    + exfalso. symmetry in Hin. revert Hin.
      apply kubeconfig_logged_not_other. eauto.
  - apply in_app_or in Hafter as [Hin|[Hin|[]]].
    + apply In_logged_until in Hin as [-> Ht]. split; [exact Ht|].
      exact (raises_in_listing_constructed request e calls text Hr Ht).
    + exfalso. symmetry in Hin. revert Hin.
      apply kubeconfig_logged_not_other. eauto.
  - apply In_logged_until in Hafter as [-> Ht]. split; [exact Ht|].
    exact (raises_in_listing_constructed request e calls text Hr Ht).
Qed.

End HandlerCoverage.
(** * Further properties of the credential decoding *)

(** X6.  Whatever text the handler hands to the client constructor is a
    sequence of Unicode scalar values (no surrogate, nothing above
    U+10FFFF), and it is the text whose UTF-8 encoding is the byte string
    the field decoded to. *)
Theorem credential_text_well_formed request text :
  credential_text request = Val text ->
  Forall scalar_value text
  /\ exists raw,
       b64decode (kubeconfig_base64 request) = Val raw
       /\ Forall (fun x => x < 256) raw
       /\ encode text = raw.
Proof.
  unfold credential_text, result_bind.
  destruct (b64decode (kubeconfig_base64 request)) as [raw|e] eqn:Hraw;
    [|discriminate].
  intros Hd. apply decode_Val_iff in Hd as [Hs He]. split; [exact Hs|].
  exists raw. split; [reflexivity|]. split; [|exact He].
  exact (b64decode_bytes _ _ Hraw).
Qed.

Lemma non_ascii_rejected field c :
  In c field -> 128 <= c ->
  b64decode field
  = Raise (mk_exc ValueError
             (py "string argument should contain only ASCII characters")).
Proof.
  intros Hin Hc. unfold b64decode, bytes_from_decode_data.
  destruct (forallb (fun c => c <? 128) field) eqn:Hall; [|reflexivity].
  rewrite forallb_forall in Hall. apply Hall in Hin.
  apply N.ltb_lt in Hin. lia.
Qed.

(** *** After the padding *)

Lemma a2b_loop_Done_app pre tail : forall q l p bin out,
  a2b_loop pre q l p bin = Done out ->
  a2b_loop (pre ++ tail) q l p bin = Done out.
Proof.
  induction pre as [|c rest IH]; intros q l p bin out; [discriminate|].
  cbn [List.app a2b_loop].
  destruct (c =? BASE64_PAD).
  - destruct (2 <=? q); [|apply IH].
    destruct (4 <=? q + (p + 1)); [trivial|apply IH].
  - cbv zeta. destruct (64 <=? table_a2b_base64 c); [apply IH|].
    destruct q as [|[[]|[]|]]; apply IH.
Qed.

Lemma b64encode_loop_padded n : forall b l p bin,
  (List.length b <= n)%nat ->
  (List.length b mod 3 <> 0)%nat ->
  Forall (fun x => x < 256) b ->
  a2b_loop (b64encode b) 0 l p bin = Done (bin ++ b).
Proof.
  induction n as [|n IH]; intros b l p bin Hlen Hmod Hb.
  - destruct b; [cbn in Hmod; congruence|cbn in Hlen; lia].
  - destruct b as [|x [|y [|z rest]]].
    + cbn in Hmod. congruence.
    + destruct (b64encode_loop 1 [x] l p bin (le_n _) Hb) as [H|H];
        [exact H|].
      exfalso. revert H. inversion_clear Hb as [|? ? Hx _]. cbn [b64encode].
      destruct (table_b2a (x / 4)) as [T1 A1]; [lia|].
      destruct (table_b2a (x mod 4 * 16)) as [T2 A2]; [lia|].
      rewrite a2b_loop_two by assumption.
      change 61 with BASE64_PAD. rewrite !a2b_loop_pad. discriminate.
    + destruct (b64encode_loop 2 [x; y] l p bin (le_n _) Hb) as [H|H];
        [exact H|].
      exfalso. revert H.
      inversion_clear Hb as [|? ? Hx Hb']. inversion_clear Hb' as [|? ? Hy _].
      cbn [b64encode].
      destruct (table_b2a (x / 4)) as [T1 A1]; [lia|].
      destruct (table_b2a (x mod 4 * 16 + y / 16)) as [T2 A2]; [lia|].
      destruct (table_b2a (y mod 16 * 4)) as [T3 A3]; [lia|].
      rewrite a2b_loop_three by assumption.
      change 61 with BASE64_PAD. rewrite a2b_loop_pad. discriminate.
    + inversion_clear Hb as [|? ? Hx Hb']. inversion_clear Hb' as [|? ? Hy Hb].
      inversion_clear Hb as [|? ? Hz Hrest].
      cbn [b64encode].
      destruct (table_b2a (x / 4)) as [T1 A1]; [lia|].
      destruct (table_b2a (x mod 4 * 16 + y / 16)) as [T2 A2]; [lia|].
      destruct (table_b2a (y mod 16 * 4 + z / 64)) as [T3 A3]; [lia|].
      destruct (table_b2a (z mod 64)) as [T4 A4]; [lia|].
      rewrite a2b_loop_four by assumption. rewrite T1, T2, T3, T4.
      rewrite byte1_encoded, byte2_encoded, byte3_encoded by lia.
      replace (bin ++ x :: y :: z :: rest) with ((bin ++ [x; y; z]) ++ rest)
        by now rewrite <- app_assoc.
      apply IH; [cbn in Hlen |- *; lia| |assumption].
      intros Hr. apply Hmod.
      change (x :: y :: z :: rest) with ([x; y; z] ++ rest).
      rewrite length_app. cbn [List.length].
      rewrite <- Nat.Div0.add_mod_idemp_l. cbn. exact Hr.
Qed.

(** X10.  When the encoded credential ends in padding, whatever ASCII text
    follows it in the field is ignored: the handler decodes the credential
    alone. *)
Theorem text_after_padding_ignored text tail :
  Forall scalar_value text ->
  (List.length (encode text) mod 3 <> 0)%nat ->
  forallb (fun c => c <? 128) tail = true ->
  credential_text (mk_request (b64encode (encode text) ++ tail)) = Val text.
Proof.
  intros Hs Hmod Htail.
  pose proof (encode_bytes text Hs) as Hb.
  unfold credential_text. cbn [kubeconfig_base64].
  unfold b64decode, bytes_from_decode_data, codepoint.
  rewrite forallb_app, Htail,
    (valid_base64_ascii _ _ (le_n _) (b64encode_valid _ _ (le_n _) Hb)).
  cbn [andb result_bind]. unfold a2b_base64.
  rewrite (a2b_loop_Done_app _ tail 0 0 0 [] _
             (b64encode_loop_padded _ _ 0 0 [] (le_n _) Hmod Hb)).
  cbn [List.app result_bind]. now apply decode_Val_iff.
Qed.

(** *** Fields of alphabet characters only *)

Lemma alphabet_loop n : forall field l p bin,
  (List.length field <= n)%nat ->
  forallb alphabet field = true ->
  exists out,
    a2b_loop field 0 l p bin
    = EndOfInput (N.of_nat (List.length field mod 4)) (bin ++ out)
    /\ List.length out
       = (3 * (List.length field / 4)
          + match (List.length field mod 4)%nat with
            | 2 => 1
            | 3 => 2
            | _ => 0
            end)%nat.
Proof.
  induction n as [|n IH]; intros field l p bin Hlen Hall.
  - destruct field; [|cbn in Hlen; lia]. exists []. now rewrite app_nil_r.
  - destruct field as [|a [|b [|c [|d rest]]]]; cbn [forallb] in Hall; bools.
    + exists []. now rewrite app_nil_r.
    + exists []. rewrite a2b_loop_data by assumption. now rewrite app_nil_r.
    + eexists. rewrite a2b_loop_two by assumption. split; reflexivity.
    + eexists. rewrite a2b_loop_three by assumption. split; reflexivity.
    + rewrite a2b_loop_four by assumption.
      match goal with
      | |- context [a2b_loop rest 0 0 0 ?acc] =>
          destruct (IH rest 0 0 acc) as (out & Hrun & Hout);
            [cbn in Hlen; lia|assumption|]
      end.
      rewrite Hrun, <- app_assoc. eexists. split.
      * f_equal. f_equal.
        change (a :: b :: c :: d :: rest) with ([a; b; c; d] ++ rest).
        rewrite length_app. cbn [List.length].
        now rewrite <- Nat.Div0.add_mod_idemp_l.
      * rewrite length_app, Hout.
        change (a :: b :: c :: d :: rest) with ([a; b; c; d] ++ rest).
        rewrite length_app. cbn [List.length].
        replace (4 + List.length rest)%nat
          with (List.length rest + 1 * 4)%nat by lia.
        rewrite Nat.div_add, Nat.Div0.mod_add by discriminate. lia.
Qed.

Lemma alphabet_ascii field :
  forallb alphabet field = true -> forallb (fun c => c <? 128) field = true.
Proof.
  rewrite !forallb_forall. intros H c Hc.
  apply N.ltb_lt. now apply table_alphabet, H.
Qed.

(** X11.  A field of alphabet characters only, without padding, decodes
    exactly when its length is a multiple of four, to three bytes per group;
    one character too many is refused with the message that names the length,
    two or three too many with ["Incorrect padding"]. *)
Theorem unpadded_field_classified field :
  forallb alphabet field = true ->
  match (List.length field mod 4)%nat with
  | 0%nat =>
      exists raw,
        b64decode field = Val raw
        /\ List.length raw = (3 * (List.length field / 4))%nat
  | 1%nat =>
      b64decode field
      = Raise (mk_exc binascii_Error
                 (py "Invalid base64-encoded string: number of data characters ("
                  ++ str_int (N.of_nat (List.length field))
                  ++ py ") cannot be 1 more than a multiple of 4"))
  | _ => b64decode field = Raise incorrect_padding
  end.
Proof.
  intros Hall. unfold b64decode, bytes_from_decode_data.
  rewrite (alphabet_ascii field Hall). cbn [result_bind]. unfold a2b_base64.
  destruct (alphabet_loop _ field 0 0 [] (le_n _) Hall) as (out & -> & Hout).
  cbn [List.app].
  pose proof (Nat.mod_upper_bound (List.length field) 4 ltac:(discriminate)) as Hlt.
  pose proof (Nat.div_mod_eq (List.length field) 4) as Hdiv.
  revert Hout Hlt Hdiv.
  generalize (List.length field mod 4)%nat as m. intros m Hout Hlt Hdiv.
  destruct m as [|[|[|[|k]]]]; try lia; cbv iota in Hout;
    cbn -[Nat.div Nat.mul N.div N.mul].
  - exists out. split; [reflexivity|lia].
  - unfold one_more_than_multiple_of_4.
    replace (N.of_nat (List.length out) / 3 * 4 + 1)
      with (N.of_nat (List.length field)); [reflexivity|].
    rewrite Hout. lia.
  - reflexivity.
  - reflexivity.
Qed.

(** *** The byte order mark *)

Lemma utf8_decode_pos b p q s :
  utf8_decode b p = Val s -> utf8_decode b q = Val s.
Proof.
  intros H. apply (utf8_decode_sound (List.length b)) in H as [Hs <-];
    [|apply le_n].
  now apply utf8_decode_encode.
Qed.

(** X12.  A UTF-8 byte order mark at the head of the decoded bytes is not
    stripped: the text handed on starts with U+FEFF, followed by the text of
    the remaining bytes. *)
Theorem byte_order_mark_kept request raw text :
  b64decode (kubeconfig_base64 request) = Val (0xEF :: 0xBB :: 0xBF :: raw) ->
  credential_text request = Val text ->
  exists text', text = 0xFEFF :: text' /\ decode raw = Val text'.
Proof.
  intros Hraw. unfold credential_text. rewrite Hraw. cbn [result_bind].
  unfold decode. cbn. intros H.
  apply emit_Val in H as (text' & H & ->).
  exists text'. split; [reflexivity|].
  exact (utf8_decode_pos raw _ 0 text' H).
Qed.

(** *** Where decoding stops *)

Lemma utf8_decode_char_at c rest pos :
  scalar_value c ->
  utf8_decode (encode_char c ++ rest) pos
  = emit c (utf8_decode rest (pos + N.of_nat (List.length (encode_char c)))).
Proof.
  unfold scalar_value, encode_char. intros Hc.
  destruct (c <? 0x80) eqn:R1.
  { cbn [List.app utf8_decode List.length N.of_nat Pos.of_succ_nat Pos.succ].
    now rewrite R1. }
  destruct (c <? 0x800) eqn:R2.
  { cbn [List.app utf8_decode List.length N.of_nat Pos.of_succ_nat Pos.succ].
    unfold IS_CONTINUATION_BYTE.
    rewrite !N.shiftl_mul_pow2. change (2 ^ 6) with 64. bools.
    pick_branch. cbn [negb]. pick_branch. f_equal. lia. }
  destruct (c <? 0x10000) eqn:R3.
  { cbn [List.app utf8_decode List.length N.of_nat Pos.of_succ_nat Pos.succ].
    unfold IS_CONTINUATION_BYTE.
    rewrite !N.shiftl_mul_pow2. change (2 ^ 6) with 64.
    change (2 ^ 12) with 4096. bools.
    pick_branch; cbn [negb andb orb]; pick_branch; f_equal; lia. }
  cbn [List.app utf8_decode List.length N.of_nat Pos.of_succ_nat Pos.succ].
  unfold IS_CONTINUATION_BYTE.
  rewrite !N.shiftl_mul_pow2. change (2 ^ 6) with 64.
  change (2 ^ 12) with 4096. change (2 ^ 18) with 262144. bools.
  pick_branch; cbn [negb andb orb]; pick_branch; f_equal; lia.
Qed.

Lemma utf8_decode_prefix text : Forall scalar_value text -> forall rest pos,
  utf8_decode (encode text ++ rest) pos
  = result_map (List.app text)
      (utf8_decode rest (pos + N.of_nat (List.length (encode text)))).
Proof.
  induction 1 as [|c text Hc _ IH]; intros rest pos.
  - cbn [encode flat_map List.app List.length N.of_nat]. rewrite N.add_0_r.
    now destruct (utf8_decode rest pos).
  - change (encode (c :: text)) with (encode_char c ++ encode text).
    rewrite <- app_assoc, (utf8_decode_char_at c _ pos Hc), IH.
    rewrite length_app, Nat2N.inj_add, N.add_assoc.
    now destruct (utf8_decode rest _).
Qed.

(** X14.  Decoding stops at the first byte that cannot start a character:
    when the decoded bytes are the UTF-8 of some text followed by such a byte,
    the handler's decode step raises the [UnicodeDecodeError] that names this
    byte and its offset, the length of the well-formed part. *)
Theorem credential_stops_at_invalid_start request text b rest :
  Forall scalar_value text ->
  (0x80 <= b < 0xC2) \/ 0xF5 <= b ->
  b64decode (kubeconfig_base64 request) = Val (encode text ++ b :: rest) ->
  let offset := N.of_nat (List.length (encode text)) in
  credential_text request
  = Raise (mk_exc UnicodeDecodeError
             (py "'utf-8' codec can't decode byte 0x" ++ hex02 b
              ++ py " in position " ++ str_int offset
              ++ py ": invalid start byte")).
Proof.
  intros Hs Hb Hraw. cbv zeta. unfold credential_text. rewrite Hraw.
  cbn [result_bind]. unfold decode.
  rewrite (utf8_decode_prefix text Hs). cbn [utf8_decode]. rewrite N.add_0_l.
  assert (Hmsg : forall p, decode_error b p (p + 1) invalid_start_byte
                      = mk_exc UnicodeDecodeError
                          (py "'utf-8' codec can't decode byte 0x" ++ hex02 b
                           ++ py " in position " ++ str_int p
                           ++ py ": invalid start byte")).
  { intros p. unfold decode_error. now rewrite N.eqb_refl. }
  destruct Hb as [[Hlo Hhi]|Hb]; pick_branch; cbn [result_map];
    now rewrite Hmsg.
Qed.

(** * [serve]: the address *)

Lemma uint_str_inj u : forall v, uint_str u = uint_str v -> u = v.
Proof.
  induction u as [|u IH|u IH|u IH|u IH|u IH|u IH|u IH|u IH|u IH|u IH];
    intros [|v|v|v|v|v|v|v|v|v|v]; cbn; intros H;
    try discriminate H; try reflexivity;
    injection H as H; f_equal; now apply IH.
Qed.

Lemma str_int_inj n m : str_int n = str_int m -> n = m.
Proof.
  assert (Hs : forall k, str_int k = uint_str (N.to_uint k))
    by (intros [|k]; reflexivity).
  rewrite !Hs. intros H. apply uint_str_inj in H.
  rewrite <- (DecimalN.Unsigned.of_to n), <- (DecimalN.Unsigned.of_to m).
  now rewrite H.
Qed.

(** X13.  [serve] binds exactly one address, once and before it starts the
    server, whether or not it is interrupted later: ["[::]:"] followed by
    the port in decimal; and the address names the port: a run that binds
    the address of port [p] was given port [p]. *)
Theorem serve_binds_one_address p t :
  (exists before after,
      fst (serve p t)
      = before ++ add_insecure_port (py "[::]:" ++ str_int p) :: after
      /\ (forall a, ~ In (add_insecure_port a) before)
      /\ (forall a, ~ In (add_insecure_port a) after)
      /\ ~ In start before
      /\ In start after)
  /\ (forall q t',
         In (add_insecure_port (py "[::]:" ++ str_int p)) (fst (serve q t')) ->
         q = p).
Proof.
  split.
  - exists [grpc_server 10; add_DataProviderServiceServicer_to_server],
      ([start; wait_for_termination]
       ++ match t with terminated => [] | interrupted => [stop 0] end).
    split; [reflexivity|].
    repeat split.
    + intros a [H|[H|[]]]; discriminate H.
    + intros a H. destruct t; cbn [List.app In] in H;
        repeat match goal with
               | H : _ \/ _ |- _ => destruct H as [H|H]
               | H : False |- _ => destruct H
               end; discriminate H.
    + intros [H|[H|[]]]; discriminate H.
    + left. reflexivity.
  - intros q t' H. unfold serve in H. cbn [fst] in H.
    apply in_app_or in H as [H|H].
    + cbn [In] in H.
      destruct H as [H|[H|[H|[H|[H|[]]]]]]; try discriminate H.
      injection H as H. now apply str_int_inj.
    + destruct t'; cbn [In] in H; [destruct H|].
      destruct H as [H|[]]. discriminate H.
Qed.

(** * The credential through the handler *)

Section CredentialCoverage.

Context {client : Type} (lib : cluster_library client).
Implicit Types (request : GetNodesRequest) (s : state client) (e : pyexc).

(** X5.  The round trip of a credential: for any text of scalar values, the
    field that holds the base64 of its UTF-8 encoding is well-formed base64,
    decodes back to that text, and the constructor is called with exactly
    that text. *)
Theorem encoded_credential_reaches_constructor text s :
  Forall scalar_value text ->
  valid_base64 (b64encode (encode text)) = true
  /\ credential_text (mk_request (b64encode (encode text))) = Val text
  /\ exists rest,
       library_calls
         (snd (GetNodes lib (mk_request (b64encode (encode text))) s))
       = library_calls s ++ new_KrknKubernetes empty_str text :: rest.
Proof.
  intros Hs. split; [|split].
  - exact (b64encode_valid _ _ (le_n _) (encode_bytes text Hs)).
  - exact (credential_text_b64encode text Hs).
  - apply GetNodes_calls_constructor. exact (credential_text_b64encode text Hs).
Qed.

(** X9.  A field with a character outside ASCII is refused before any
    decoding: the context gets [INTERNAL] with the details
    ["Failed to get nodes: string argument should contain only ASCII
    characters"], the response is empty and the library is not called. *)
Theorem GetNodes_non_ascii_field request c s :
  In c (kubeconfig_base64 request) ->
  128 <= c ->
  exists s',
    GetNodes lib request s = (Val empty_response, s')
    /\ context s'
       = context s
         ++ [set_code INTERNAL;
             set_details
               (py "Failed to get nodes: string argument should contain only ASCII characters")]
    /\ library_calls s' = library_calls s.
Proof.
  intros Hin Hc.
  assert (Ht : credential_text request
               = Raise (mk_exc ValueError
                          (py "string argument should contain only ASCII characters"))).
  { unfold credential_text.
    now rewrite (non_ascii_rejected (kubeconfig_base64 request) c Hin Hc). }
  rewrite (GetNodes_raises_at lib request in_decode _ [] s
             (raises_in_decode lib request _ Ht)).
  cbn [isinstance_Exception issubclass_Exception exc_class_of].
  eexists. split; [reflexivity|]. cbn [context library_calls].
  split; [reflexivity|apply app_nil_r].
Qed.

End CredentialCoverage.

(** ** The further properties on the sample clusters *)

Lemma kubeconfig_scalar : Forall scalar_value Sample.kubeconfig.
Proof. repeat constructor. Defined.

Lemma GetNodes_response_matches_status_witness :
  GetNodes Sample.three_nodes Sample.good_request Sample.fresh
  = (Val (mk_response [py "a"; py "b"; py "c"]),
     snd (GetNodes Sample.three_nodes Sample.good_request Sample.fresh))
  /\ context (snd (GetNodes Sample.three_nodes Sample.good_request Sample.fresh))
     = context Sample.fresh
  /\ list_nodes Sample.three_nodes Sample.kubeconfig
     = Val [py "a"; py "b"; py "c"].
Proof.
  assert (Hrun : GetNodes Sample.three_nodes Sample.good_request Sample.fresh
                 = (Val (mk_response [py "a"; py "b"; py "c"]),
                    snd (GetNodes Sample.three_nodes Sample.good_request
                           Sample.fresh)))
    by (vm_compute; reflexivity).
  split; [exact Hrun|].
  destruct (GetNodes_response_matches_status Sample.three_nodes
              Sample.good_request Sample.fresh _ _ Hrun)
    as [[Hctx _] | [Hnodes _]].
  - split; [exact Hctx|reflexivity].
  - discriminate Hnodes.
Defined.

Lemma GetNodes_raises_only_library_signals_witness :
  GetNodes Sample.exiting_listing Sample.good_request Sample.fresh
  = (Raise Sample.exit_1,
     snd (GetNodes Sample.exiting_listing Sample.good_request Sample.fresh))
  /\ isinstance_Exception Sample.exit_1 = false
  /\ context (snd (GetNodes Sample.exiting_listing Sample.good_request
                     Sample.fresh))
     = context Sample.fresh.
Proof.
  assert (Hrun : GetNodes Sample.exiting_listing Sample.good_request Sample.fresh
                 = (Raise Sample.exit_1,
                    snd (GetNodes Sample.exiting_listing Sample.good_request
                           Sample.fresh)))
    by (vm_compute; reflexivity).
  split; [exact Hrun|].
  destruct (GetNodes_raises_only_library_signals Sample.exiting_listing
              Sample.good_request Sample.fresh _ _ Hrun) as (He & _ & Hctx).
  split; [exact He|exact Hctx].
Defined.

Lemma accented_scalar : Forall scalar_value MoreSamples.accented.
Proof. repeat constructor. Defined.

Lemma encoded_credential_reaches_constructor_witness :
  Forall scalar_value MoreSamples.accented
  /\ b64encode (encode MoreSamples.accented) = py "Y2zDqQ=="
  /\ credential_text (mk_request (b64encode (encode MoreSamples.accented)))
     = Val MoreSamples.accented
  /\ exists rest,
       library_calls
         (snd (GetNodes Sample.three_nodes
                 (mk_request (b64encode (encode MoreSamples.accented)))
                 Sample.fresh))
       = library_calls Sample.fresh
         ++ new_KrknKubernetes empty_str MoreSamples.accented :: rest.
Proof.
  split; [exact accented_scalar|]. split; [vm_compute; reflexivity|].
  destruct (encoded_credential_reaches_constructor Sample.three_nodes
              MoreSamples.accented Sample.fresh accented_scalar)
    as (_ & Ht & Hcalls).
  split; [exact Ht|exact Hcalls].
Defined.

Lemma credential_text_well_formed_witness :
  credential_text Sample.good_request = Val Sample.kubeconfig
  /\ Forall scalar_value Sample.kubeconfig
  /\ exists raw,
       b64decode (kubeconfig_base64 Sample.good_request) = Val raw
       /\ Forall (fun x => x < 256) raw
       /\ encode Sample.kubeconfig = raw.
Proof.
  split; [vm_compute; reflexivity|].
  apply (credential_text_well_formed Sample.good_request Sample.kubeconfig).
  vm_compute. reflexivity.
Defined.

Lemma credential_logged_only_after_construction_witness :
  ~ In (kubeconfig_logged Sample.kubeconfig) (log Sample.fresh)
  /\ In (kubeconfig_logged Sample.kubeconfig)
        (log (snd (GetNodes Sample.three_nodes Sample.good_request Sample.fresh)))
  /\ credential_text Sample.good_request = Val Sample.kubeconfig
  /\ exists c,
       KrknKubernetes Sample.three_nodes empty_str Sample.kubeconfig = Val c.
Proof.
  assert (Hbefore : ~ In (kubeconfig_logged Sample.kubeconfig) (log Sample.fresh))
    by (intros []).
  assert (Hafter : In (kubeconfig_logged Sample.kubeconfig)
                      (log (snd (GetNodes Sample.three_nodes Sample.good_request
                                   Sample.fresh))))
    by (vm_compute; auto).
  split; [exact Hbefore|]. split; [exact Hafter|].
  exact (credential_logged_only_after_construction Sample.three_nodes
           Sample.good_request Sample.fresh Sample.kubeconfig Hbefore Hafter).
Defined.

Lemma GetNodes_non_ascii_field_witness :
  In 233 (kubeconfig_base64 MoreSamples.non_ascii_request)
  /\ 128 <= 233
  /\ exists s',
       GetNodes Sample.three_nodes MoreSamples.non_ascii_request Sample.fresh
       = (Val empty_response, s')
       /\ context s'
          = context Sample.fresh
            ++ [set_code INTERNAL;
                set_details
                  (py "Failed to get nodes: string argument should contain only ASCII characters")]
       /\ library_calls s' = library_calls Sample.fresh.
Proof.
  assert (Hin : In 233 (kubeconfig_base64 MoreSamples.non_ascii_request))
    by (left; reflexivity).
  assert (Hc : 128 <= 233) by (vm_compute; discriminate).
  split; [exact Hin|]. split; [exact Hc|].
  exact (GetNodes_non_ascii_field Sample.three_nodes
           MoreSamples.non_ascii_request 233 Sample.fresh Hin Hc).
Defined.

Lemma text_after_padding_ignored_witness :
  Forall scalar_value Sample.kubeconfig
  /\ (List.length (encode Sample.kubeconfig) mod 3 <> 0)%nat
  /\ forallb (fun c => c <? 128) (py "garbage") = true
  /\ mk_request (b64encode (encode Sample.kubeconfig) ++ py "garbage")
     = MoreSamples.trailing_request
  /\ credential_text MoreSamples.trailing_request = Val Sample.kubeconfig.
Proof.
  assert (Hmod : (List.length (encode Sample.kubeconfig) mod 3 <> 0)%nat)
    by (vm_compute; discriminate).
  assert (Hfield : mk_request (b64encode (encode Sample.kubeconfig) ++ py "garbage")
                   = MoreSamples.trailing_request)
    by (vm_compute; reflexivity).
  split; [exact kubeconfig_scalar|]. split; [exact Hmod|].
  split; [reflexivity|]. split; [exact Hfield|].
  rewrite <- Hfield.
  exact (text_after_padding_ignored Sample.kubeconfig (py "garbage")
           kubeconfig_scalar Hmod eq_refl).
Defined.

Lemma unpadded_field_classified_witness :
  forallb alphabet MoreSamples.five_characters = true
  /\ b64decode MoreSamples.five_characters
     = Raise (mk_exc binascii_Error
                (py "Invalid base64-encoded string: number of data characters (5) cannot be 1 more than a multiple of 4")).
Proof.
  split; [reflexivity|].
  exact (unpadded_field_classified MoreSamples.five_characters eq_refl).
Defined.

Lemma byte_order_mark_kept_witness :
  b64decode (kubeconfig_base64 MoreSamples.bom_request)
  = Val [0xEF; 0xBB; 0xBF; 97]
  /\ credential_text MoreSamples.bom_request = Val [0xFEFF; 97]
  /\ exists text', [0xFEFF; 97] = 0xFEFF :: text' /\ decode [97] = Val text'.
Proof.
  assert (Hraw : b64decode (kubeconfig_base64 MoreSamples.bom_request)
                 = Val [0xEF; 0xBB; 0xBF; 97]) by (vm_compute; reflexivity).
  assert (Ht : credential_text MoreSamples.bom_request = Val [0xFEFF; 97])
    by (vm_compute; reflexivity).
  split; [exact Hraw|]. split; [exact Ht|].
  exact (byte_order_mark_kept MoreSamples.bom_request [97] [0xFEFF; 97] Hraw Ht).
Defined.

Lemma ab_scalar : Forall scalar_value (py "ab").
Proof. repeat constructor. Defined.

Lemma credential_stops_at_invalid_start_witness :
  Forall scalar_value (py "ab")
  /\ (0x80 <= 0xFF < 0xC2 \/ 0xF5 <= 0xFF)
  /\ b64decode (kubeconfig_base64 (mk_request (py "YWL/")))
     = Val (encode (py "ab") ++ 0xFF :: [])
  /\ credential_text (mk_request (py "YWL/"))
     = Raise (mk_exc UnicodeDecodeError
                (py "'utf-8' codec can't decode byte 0xff in position 2: invalid start byte")).
Proof.
  assert (Hb : 0x80 <= 0xFF < 0xC2 \/ 0xF5 <= 0xFF)
    by (right; vm_compute; discriminate).
  assert (Hraw : b64decode (kubeconfig_base64 (mk_request (py "YWL/")))
                 = Val (encode (py "ab") ++ 0xFF :: []))
    by (vm_compute; reflexivity).
  split; [exact ab_scalar|]. split; [exact Hb|]. split; [exact Hraw|].
  exact (credential_stops_at_invalid_start (mk_request (py "YWL/")) (py "ab")
           0xFF [] ab_scalar Hb Hraw).
Defined.
